(** * InquirerPy: checkbox and rawlist prompts, and the choice-window height

    A shallow embedding of [InquirerPy/utils.py], [InquirerPy/prompts/rawlist.py]
    and [InquirerPy/prompts/checkbox.py], followed by the properties of the
    selection core that the specification states about them.

    Conventions of the embedding:
    - a Python [int] is a [Z]; a Python [str] is a [string], one [ascii]
      per character, so its [len] is [String.length];
    - a Python [float] is an IEEE-754 binary64 value, taken from the
      Standard Library's [SpecFloat] (precision 53, exponent bound 1024);
    - a function that may raise returns a [result]: [Ok v] or [Raise e];
    - a choice dictionary is a record whose optional keys are [option]s. *)

From Stdlib Require Import ZArith List String Ascii Bool Lia.
From Stdlib Require Import SpecFloat DecimalString DecimalZ.
Import ListNotations.

Local Open Scope string_scope.
Local Open Scope Z_scope.

(** ** Exceptions and results *)

Module Py.

(** The exception classes that the modelled code can raise. *)
Inductive exn : Type :=
| InvalidArgument     (* InquirerPy.exceptions.InvalidArgument *)
| ValueError
| OverflowError
| ZeroDivisionError
| IndexError
| KeyError.

Definition exn_eqb (a b : exn) : bool :=
  match a, b with
  | InvalidArgument, InvalidArgument
  | ValueError, ValueError
  | OverflowError, OverflowError
  | ZeroDivisionError, ZeroDivisionError
  | IndexError, IndexError
  | KeyError, KeyError => true
  | _, _ => false
  end.

Inductive result (A : Type) : Type :=
| Ok (a : A)
| Raise (e : exn).

Arguments Ok {A} a.
Arguments Raise {A} e.

Definition bind {A B : Type} (r : result A) (k : A -> result B) : result B :=
  match r with
  | Ok a => k a
  | Raise e => Raise e
  end.

(** [try: body except caught: raise raised] *)
Definition except_raise {A : Type} (caught raised : exn) (body : result A)
  : result A :=
  match body with
  | Ok a => Ok a
  | Raise e => if exn_eqb e caught then Raise raised else Raise e
  end.

(** Reading an optional dictionary key: [d[k]] raises [KeyError] when absent. *)
Definition getitem {A : Type} (o : option A) : result A :=
  match o with
  | Some a => Ok a
  | None => Raise KeyError
  end.

End Py.

Import Py.

Declare Scope py_scope.
Delimit Scope py_scope with py.
Notation "x <- c ;; k" := (bind c (fun x => k))
  (at level 61, c at next level, right associativity) : py_scope.
Local Open Scope py_scope.

(** ** The built-ins [int(str)], [str(int)] and [str.replace] *)

Module Builtins.

(** Characters that [int()] strips as white space: tab, line feed,
    vertical tab, form feed, carriage return and space. *)
Definition is_space (c : ascii) : bool :=
  let n := nat_of_ascii c in
  (Nat.leb 9 n && Nat.leb n 13) || Nat.eqb n 32.

Definition is_digit (c : ascii) : bool :=
  let n := nat_of_ascii c in Nat.leb 48 n && Nat.leb n 57.

Definition digit_value (c : ascii) : Z := Z.of_nat (nat_of_ascii c) - 48.

Fixpoint lstrip (l : list ascii) : list ascii :=
  match l with
  | c :: r => if is_space c then lstrip r else l
  | [] => []
  end.

Definition strip (l : list ascii) : list ascii :=
  rev (lstrip (rev (lstrip l))).

(** Decimal digits with single underscores allowed between two digits.
    [prev] records that the previous character was a digit. *)
Fixpoint digits (prev : bool) (acc : Z) (l : list ascii) : option Z :=
  match l with
  | [] => if prev then Some acc else None
  | c :: r =>
      if is_digit c then digits true (10 * acc + digit_value c) r
      else if (Ascii.eqb c "_" && prev)%bool then digits false acc r
      else None
  end.

(** [int(s)] for a string, base 10: surrounding white space, an optional
    sign, then digits.  [None] stands for [ValueError].  Only ASCII
    strings are covered: a byte above 127 is never a digit or a space.
    The bound that recent interpreters put on the number of digits is left
    out. *)
Definition parse_int (s : string) : option Z :=
  match strip (list_ascii_of_string s) with
  | "+"%char :: r => digits false 0 r
  | "-"%char :: r => option_map Z.opp (digits false 0 r)
  | l => digits false 0 l
  end.

Definition int_of_str (s : string) : result Z :=
  match parse_int s with
  | Some z => Ok z
  | None => Raise ValueError
  end.

(** [str(n)] for an integer: its decimal numeral. *)
Definition str (n : Z) : string := NilZero.string_of_int (Z.to_int n).

(** [s.replace(c, "")] for a one-character pattern. *)
Fixpoint remove_char (c : ascii) (s : string) : string :=
  match s with
  | EmptyString => EmptyString
  | String a r =>
      if Ascii.eqb a c then remove_char c r else String a (remove_char c r)
  end.

(** [n * " "] *)
Fixpoint spaces (n : nat) : string :=
  match n with
  | O => EmptyString
  | S k => String " " (spaces k)
  end.

End Builtins.

Import Builtins.

(** ** Python floats: binary64 arithmetic *)

Module Float.

Definition prec : Z := 53.
Definition emax : Z := 1024.

Definition float : Type := spec_float.

(** An integer seen as an unrounded binary value [n * 2^0]. *)
Definition exact (n : Z) : float :=
  match n with
  | Z0 => S754_zero false
  | Zpos p => S754_finite false p 0
  | Zneg p => S754_finite true p 0
  end.

(** [a / b] on two integers: the correctly rounded quotient;
    [ZeroDivisionError] for a zero divisor, [OverflowError] when the
    quotient is too large for a float. *)
Definition true_div (a b : Z) : result float :=
  if b =? 0 then Raise ZeroDivisionError
  else
    match SFdiv prec emax (exact a) (exact b) with
    | S754_infinity _ => Raise OverflowError
    | q => Ok q
    end.

(** Conversion of an integer operand to float (round to nearest even);
    [OverflowError] when it is too large. *)
Definition of_int (n : Z) : result float :=
  match binary_normalize prec emax n 0 false with
  | S754_infinity _ => Raise OverflowError
  | f => Ok f
  end.

(** [n * x] with an integer [n] and a float [x]. *)
Definition int_mul (n : Z) (x : float) : result float :=
  f <- of_int n ;;
  Ok (SFmul prec emax f x).

(** [math.floor]: [OverflowError] on an infinity, [ValueError] on NaN. *)
Definition floor (x : float) : result Z :=
  match x with
  | S754_zero _ => Ok 0
  | S754_finite s m e =>
      let v := if s then Zneg m else Zpos m in
      Ok (if 0 <=? e then v * 2 ^ e else v / 2 ^ (- e))
  | S754_infinity _ => Raise OverflowError
  | S754_nan => Raise ValueError
  end.

End Float.

(** ** [InquirerPy/utils.py] *)

Module Utils.

(** [Union[int, str]]: the two admitted shapes of a height argument. *)
Inductive int_or_str : Type :=
| PyInt (n : Z)
| PyStr (s : string).

(** Python truth value of an [Optional[Union[int, str]]]. *)
Definition truth (a : option int_or_str) : bool :=
  match a with
  | None => false
  | Some (PyInt n) => negb (n =? 0)
  | Some (PyStr s) => negb (String.eqb s "")
  end.

(** Python truth value of an [Optional[int]]. *)
Definition truth_int (a : option Z) : bool :=
  match a with
  | None => false
  | Some n => negb (n =? 0)
  end.

(** Lines 57 and 67-69, on the integer [height] that line 56 (66) parsed:
    [math.floor(term_lines * (height / 100)) - offset]. *)
Definition percent_rows (term_lines offset height : Z) : result Z :=
  ratio <- Float.true_div height 100 ;;
  scaled <- Float.int_mul term_lines ratio ;;
  rows <- Float.floor scaled ;;
  Ok (rows - offset).

(** The string branch, lines 55-57 and 65-69. *)
Definition percentage (term_lines offset : Z) (s : string) : result Z :=
  height <- int_of_str (remove_char "%" s) ;;
  percent_rows term_lines offset height.

(** Lines 51-59. *)
Definition dimmension_height (term_lines offset : Z)
    (height : option int_or_str) : result (option Z) :=
  if negb (truth height) then Ok None
  else
    match height with
    | Some (PyStr s) =>
        h <- percentage term_lines offset s ;; Ok (Some h)
    | Some (PyInt n) => Ok (Some n)
    | None => Ok None
    end.

(** Lines 61-71. *)
Definition dimmension_max_height (term_lines offset : Z)
    (max_height : option int_or_str) : result Z :=
  if negb (truth max_height) then Ok (term_lines - offset)
  else
    match max_height with
    | Some (PyStr s) => percentage term_lines offset s
    | Some (PyInt n) => Ok n
    | None => Ok (term_lines - offset)
    end.

(** Lines 72-75: the two clamping statements, in order. *)
Definition clamp (dh : option Z) (dmh : Z) : option Z :=
  let dh1 :=
    match dh with
    | Some h => if truth_int dh && (dmh <? h) then Some dmh else dh
    | None => dh
    end in
  match dh1 with
  | Some h => if truth_int dh1 && (h <? 0) then Some 1 else dh1
  | None => dh1
  end.

(** [calculate_height], lines 37-81; [term_lines] is what
    [shutil.get_terminal_size()] reports. *)
Definition calculate_height (term_lines : Z)
    (height max_height : option int_or_str) (offset : Z)
  : result (option Z * Z) :=
  except_raise ValueError InvalidArgument
    (dh <- dimmension_height term_lines offset height ;;
     dmh <- dimmension_max_height term_lines offset max_height ;;
     Ok (clamp dh dmh, dmh)).

(** [os.getenv(name, default)], the process environment being [environ]. *)
Definition getenv (environ : string -> option string) (name default : string)
  : string :=
  match environ name with
  | Some v => v
  | None => default
  end.

(** [get_style], lines 11-34: the dictionary literal, in insertion order. *)
Definition get_style (environ : string -> option string)
  : list (string * string) :=
  [ ("questionmark", getenv environ "INQUIRERPY_STYLE_QUESTIONMARK" "#e5c07b");
    ("answer", getenv environ "INQUIRERPY_STYLE_ANSWER" "#61afef");
    ("input", getenv environ "INQUIRERPY_STYLE_INPUT" "#98c379");
    ("question", getenv environ "INQUIRERPY_STYLE_QUESTION" "");
    ("instruction", getenv environ "INQUIRERPY_STYLE_INSTRUCTION" "");
    ("pointer", getenv environ "INQUIRERPY_STYLE_POINTER" "#61afef");
    ("checkbox", getenv environ "INQUIRERPY_STYLE_CHECKBOX" "#98c379");
    ("separator", getenv environ "INQUIRERPY_STYLE_SEPARATOR" "");
    ("skipped", getenv environ "INQUIRERPY_STYLE_SKIPPED" "#5c6370");
    ("fuzzy_prompt", getenv environ "INQUIRERPY_STYLE_FUZZY_PROMPT" "#c678dd");
    ("fuzzy_info", getenv environ "INQUIRERPY_STYLE_FUZZY_INFO" "#98c379");
    ("fuzzy_marker", getenv environ "INQUIRERPY_STYLE_FUZZY_MARKER" "#e5c07b");
    ("fuzzy_border", getenv environ "INQUIRERPY_STYLE_FUZZY_BORDER" "#4b5263");
    ("fuzzy_match", getenv environ "INQUIRERPY_STYLE_FUZZY_MATCH" "#c678dd") ].

End Utils.

(** ** Choices *)

Module Choices.

(** A Python value as far as the prompts look at it: the payload of a
    choice or the [default] argument.  [Separator line] is an instance
    of [InquirerPy.separator.Separator]. *)
Inductive pyobj : Type :=
| PyNone
| Int (n : Z)
| Str (s : string)
| Separator (line : string).

(** [isinstance(v, Separator)] *)
Definition isinstance_Separator (v : pyobj) : bool :=
  match v with
  | Separator _ => true
  | _ => false
  end.

(** [n == v] for an integer [n]. *)
Definition int_eq (n : Z) (v : pyobj) : bool :=
  match v with
  | Int m => n =? m
  | _ => false
  end.

(** One entry of [self.choices].  The keys ["name"], ["value"] and
    ["enabled"] are there after the base constructor; ["display_index"]
    and ["actual_index"] are absent until the rawlist control adds them.
    Every entry of [self.choices] is a dictionary of its own. *)
Record choice : Type := {
  name : string;
  value : pyobj;
  enabled : bool;
  display_index : option Z;
  actual_index : option Z
}.

Definition is_separator (c : choice) : bool := isinstance_Separator (value c).

(** [choice["display_index"] = d; choice["actual_index"] = a] *)
Definition set_indices (d a : Z) (c : choice) : choice :=
  {| name := name c; value := value c; enabled := enabled c;
     display_index := Some d; actual_index := Some a |}.

(** [choice["enabled"] = b] *)
Definition set_enabled (b : bool) (c : choice) : choice :=
  {| name := name c; value := value c; enabled := b;
     display_index := display_index c; actual_index := actual_index c |}.

(** What [InquirerPyUIControl.__init__] (InquirerPy/base.py) leaves in
    the object: the normalised choices and the initial cursor. *)
Record InquirerPyUIControl : Type := {
  base_choices : list choice;
  base_selected_choice_index : Z
}.

(** A styled text segment [(style, text)]. *)
Definition segment : Type := (string * string)%type.

End Choices.

Import Choices.

(** ** [InquirerPy/prompts/rawlist.py] *)

Module Rawlist.

Record InquirerPyRawlistControl : Type := {
  _pointer : string;
  _separator : string;
  _marker : string;
  choices : list choice;
  selected_choice_index : Z
}.

(** Lines 31-37: the loop over [enumerate(self.choices)], with the loop
    variable [index] and the counter [separator_count]. *)
Fixpoint index_choices (index separator_count : Z) (cs : list choice)
  : list choice :=
  match cs with
  | [] => []
  | c :: rest =>
      if isinstance_Separator (value c)
      then c :: index_choices (index + 1) (separator_count + 1) rest
      else set_indices (index + 1 - separator_count) index c
             :: index_choices (index + 1) separator_count rest
  end.

(** Lines 39-41: [while isinstance(self.choices[i]["value"], Separator): i += 1],
    started at [i]; [cs] is [self.choices[i:]].  Indexing past the end
    raises [IndexError]. *)
Fixpoint first_valid_choice_index (i : Z) (cs : list choice) : result Z :=
  match cs with
  | [] => Raise IndexError
  | c :: rest =>
      if isinstance_Separator (value c)
      then first_valid_choice_index (i + 1) rest
      else Ok i
  end.

(** Lines 43-48: the scan for the choice whose display index is [default];
    [None] when the loop ends without [break]. *)
Fixpoint find_default (default : pyobj) (cs : list choice)
  : result (option Z) :=
  match cs with
  | [] => Ok None
  | c :: rest =>
      if isinstance_Separator (value c) then find_default default rest
      else
        d <- getitem (display_index c) ;;
        if int_eq d default
        then a <- getitem (actual_index c) ;; Ok (Some a)
        else find_default default rest
  end.

(** [InquirerPyRawlistControl.__init__], lines 17-48.  [base] is the
    state in which [super().__init__(choices, default)] returns. *)
Definition InquirerPyRawlistControl_init (base : InquirerPyUIControl)
    (default : pyobj) (pointer separator marker : string)
  : result InquirerPyRawlistControl :=
  let cs := index_choices 0 0 (base_choices base) in
  let sel := base_selected_choice_index base in
  first <- first_valid_choice_index 0 cs ;;
  sel' <- (if sel =? first
           then found <- find_default default cs ;;
                Ok (match found with Some a => a | None => sel end)
           else Ok sel) ;;
  Ok {| _pointer := pointer; _separator := separator; _marker := marker;
        choices := cs; selected_choice_index := sel' |}.

Section Rendering.
Variable self : InquirerPyRawlistControl.

(** ["%s%s " % (str(choice["display_index"]), self._separator)] *)
Definition index_text (d : Z) : string := str d ++ _separator self ++ " ".

Definition marker_segment (c : choice) : segment :=
  ("class:marker", if enabled c then _marker self else " ").

(** Lines 50-68. *)
Definition _get_hover_text (c : choice) : result (list segment) :=
  let display_choices :=
    [("class:pointer", _pointer self); marker_segment c] in
  display_choices <-
    (if negb (isinstance_Separator (value c))
     then d <- getitem (display_index c) ;;
          Ok (display_choices ++ [("class:pointer", index_text d)])%list
     else Ok display_choices) ;;
  Ok (display_choices
        ++ [("[SetCursorPosition]", ""); ("class:pointer", name c)])%list.

(** Lines 70-86. *)
Definition _get_normal_text (c : choice) : result (list segment) :=
  let display_choices :=
    [("", spaces (String.length (_pointer self))); marker_segment c] in
  if negb (isinstance_Separator (value c))
  then d <- getitem (display_index c) ;;
       Ok (display_choices ++ [("", index_text d); ("", name c)])%list
  else Ok (display_choices ++ [("class:separator", name c)])%list.
End Rendering.

(** The closure that [keybinding_factory(choice)] registers: it holds
    its own [choice], named here by the position of that dictionary in
    [self.content_control.choices]. *)
Record keybinding : Type := {
  key : string;
  captured_choice : nat
}.

(** A binding that [BaseComplexPrompt.__init__] (InquirerPy/base.py, not
    among the sources) has put into [self.kb]: its key and what its
    handler does to the control.  It is taken as a plain binding of the
    terminal engine, as the jump bindings are: on one key, with no filter
    that switches it off and not eager. *)
Record inherited_binding : Type := {
  inherited_key : string;
  inherited_handler : InquirerPyRawlistControl -> result InquirerPyRawlistControl
}.

(** [self.kb] is kept in two parts: the bindings that were there when
    [BaseComplexPrompt.__init__] returned, and after them the jump
    bindings that [RawlistPrompt.__init__] adds, in registration order. *)
Record RawlistPrompt : Type := {
  content_control : InquirerPyRawlistControl;
  inherited_kb : list inherited_binding;
  kb : list keybinding
}.

(** [self.kb.add(k)] of the terminal engine, for the keys that the prompt
    passes, decimal numerals: the engine takes a key that is one character
    long or one of its named keys, and no named key is a numeral, so it
    refuses a numeral of several characters with [ValueError]. *)
Definition kb_add (k : string) : result string :=
  if Nat.eqb (String.length k) 1 then Ok k else Raise ValueError.

(** Lines 167-172: [self.kb.add(str(choice["display_index"]))] applied to
    the closure over the choice at position [pos]. *)
Definition keybinding_factory (pos : nat) (c : choice) : result keybinding :=
  d <- getitem (display_index c) ;;
  k <- kb_add (str d) ;;
  Ok {| key := k; captured_choice := pos |}.

(** Lines 174-176, the loop over [self.content_control.choices];
    [pos] is the position of the head of [cs]. *)
Fixpoint register_keybindings (pos : nat) (cs : list choice)
  : result (list keybinding) :=
  match cs with
  | [] => Ok []
  | c :: rest =>
      if negb (isinstance_Separator (value c))
      then b <- keybinding_factory pos c ;;
           bs <- register_keybindings (S pos) rest ;;
           Ok (b :: bs)
      else register_keybindings (S pos) rest
  end.

(** [RawlistPrompt.__init__], lines 129-176: the control (lines 149-151),
    then [super().__init__] (lines 153-165), then the jump bindings (lines
    167-176).  [super_init] is the outcome of [BaseComplexPrompt.__init__],
    which is not among the sources: the exception it raises, or the
    bindings it leaves in [self.kb]. *)
Definition RawlistPrompt_init (base : InquirerPyUIControl)
    (super_init : result (list inherited_binding))
    (default : pyobj) (separator pointer marker : string)
  : result RawlistPrompt :=
  control <- InquirerPyRawlistControl_init base default pointer separator marker ;;
  inherited <- super_init ;;
  bindings <- register_keybindings 0 (choices control) ;;
  Ok {| content_control := control; inherited_kb := inherited; kb := bindings |}.

(** [self.content_control = control] *)
Definition set_content_control (control : InquirerPyRawlistControl)
    (self : RawlistPrompt) : RawlistPrompt :=
  {| content_control := control;
     inherited_kb := inherited_kb self;
     kb := kb self |}.

(** [self.content_control.selected_choice_index = i] *)
Definition set_selected_choice_index (i : Z) (self : RawlistPrompt)
  : RawlistPrompt :=
  let control := content_control self in
  set_content_control
    {| _pointer := _pointer control;
       _separator := _separator control;
       _marker := _marker control;
       choices := choices control;
       selected_choice_index := i |}
    self.

(** Lines 169-170, the body of the closure:
    [self.content_control.selected_choice_index = int(choice["actual_index"])].
    The captured dictionary is read when the key is pressed. *)
Definition run_keybinding (b : keybinding) (self : RawlistPrompt)
  : result RawlistPrompt :=
  match nth_error (choices (content_control self)) (captured_choice b) with
  | None => Raise IndexError
  | Some c =>
      a <- getitem (actual_index c) ;;
      Ok (set_selected_choice_index a self)
  end.

Definition run_inherited (b : inherited_binding) (self : RawlistPrompt)
  : result RawlistPrompt :=
  control <- inherited_handler b (content_control self) ;;
  Ok (set_content_control control self).

(** A key press as the terminal engine dispatches it among plain
    bindings: of the bindings registered for the pressed key the one added
    last runs, so a jump binding goes before an inherited one; a key
    without binding leaves the prompt as it is. *)
Definition bindings_for (k : string) (self : RawlistPrompt) : list keybinding :=
  filter (fun b => String.eqb (key b) k) (kb self).

Definition inherited_for (k : string) (self : RawlistPrompt)
  : list inherited_binding :=
  filter (fun b => String.eqb (inherited_key b) k) (inherited_kb self).

Definition press (k : string) (self : RawlistPrompt) : result RawlistPrompt :=
  match rev (bindings_for k self) with
  | b :: _ => run_keybinding b self
  | [] =>
      match rev (inherited_for k self) with
      | b :: _ => run_inherited b self
      | [] => Ok self
      end
  end.

(** [RawlistPrompt._get_prompt_message], lines 178-188.  The message of
    the base class, [self.status["answered"]] and
    [self.content_control.selection] come from code that is not among the
    sources and are arguments here; the selection is only read while the
    prompt is not answered. *)
Definition _get_prompt_message (display_message : list segment)
    (answered : bool) (selection : choice) : result (list segment) :=
  if negb answered
  then d <- getitem (display_index selection) ;;
       Ok (display_message ++ [("class:input", (" " ++ str d)%string)])%list
  else Ok display_message.

End Rawlist.

(** ** [InquirerPy/prompts/checkbox.py] *)

Module Checkbox.

(** A raw entry of the [choices] argument: a dictionary (of which the
    control reads the optional key ["enabled"]) or any other value. *)
Inductive raw_choice : Type :=
| RawDict (raw_name : string) (raw_value : pyobj) (raw_enabled : option bool)
| RawValue (v : pyobj).

Record InquirerPyCheckboxControl : Type := {
  pointer : string;
  enabled_symbol : string;
  disabled_symbol : string;
  choices : list choice;
  selected_choice_index : Z
}.

(** Lines 47-51: [for raw_choice, choice in zip(choices, self.choices)]. *)
Fixpoint init_enabled (raws : list raw_choice) (cs : list choice)
  : list choice :=
  match raws, cs with
  | raw :: raws', c :: cs' =>
      let e := match raw with
               | RawDict _ _ (Some b) => b
               | RawDict _ _ None => false
               | RawValue _ => false
               end in
      set_enabled e c :: init_enabled raws' cs'
  | _, _ => cs
  end.

(** [InquirerPyCheckboxControl.__init__], lines 33-51. *)
Definition InquirerPyCheckboxControl_init (raws : list raw_choice)
    (base : InquirerPyUIControl) (pointer_arg enabled_arg disabled_arg : string)
  : InquirerPyCheckboxControl :=
  {| pointer := pointer_arg ++ " ";
     enabled_symbol := enabled_arg;
     disabled_symbol := disabled_arg;
     choices := init_enabled raws (base_choices base);
     selected_choice_index := base_selected_choice_index base |}.

Section Rendering.
Variable self : InquirerPyCheckboxControl.

Definition checkbox_segment (c : choice) : segment :=
  ("class:checkbox",
   if enabled c then enabled_symbol self ++ " "
   else disabled_symbol self ++ " ").

(** Lines 53-67. *)
Definition _get_hover_text (c : choice) : list segment :=
  let display_choices := [("class:pointer", pointer self)] in
  let display_choices :=
    if negb (isinstance_Separator (value c))
    then (display_choices ++ [checkbox_segment c])%list
    else display_choices in
  (display_choices
     ++ [("[SetCursorPosition]", ""); ("class:pointer", name c)])%list.

(** Lines 69-84. *)
Definition _get_normal_text (c : choice) : list segment :=
  let display_choices := [("", spaces (String.length (pointer self)))] in
  if negb (isinstance_Separator (value c))
  then (display_choices ++ [checkbox_segment c; ("", name c)])%list
  else (display_choices ++ [("class:separator", name c)])%list.
End Rendering.

(** A call that leaves the prompt code: the validator, or the
    application's [exit]. *)
Inductive call : Type :=
| Validate (selection : list pyobj)
| AppExit (result : list pyobj).

Record CheckboxPrompt : Type := {
  content_control : InquirerPyCheckboxControl;
  status_answered : bool;            (* status["answered"] *)
  status_result : option (list string);   (* status["result"] *)
  _invalid : bool;
  _validator : option (list pyobj -> bool)
}.

(** The prompt holding another validator. *)
Definition set_validator (validate : option (list pyobj -> bool))
    (self : CheckboxPrompt) : CheckboxPrompt :=
  {| content_control := content_control self;
     status_answered := status_answered self;
     status_result := status_result self;
     _invalid := _invalid self;
     _validator := validate |}.

(** Modelled from the spec: the property [result_value] of
    [BaseComplexPrompt] (InquirerPy/base.py) is not among the sources.
    For a multiselect prompt the result is "a (possibly empty) ordered
    sequence of the value of every choice whose enabled is true, in
    original choice order". *)
Definition result_value (self : CheckboxPrompt) : list pyobj :=
  map value (filter enabled (choices (content_control self))).

Section Handlers.
(** The property [result_name] of [BaseComplexPrompt], of which the
    sources and the specification say nothing. *)
Variable result_name : CheckboxPrompt -> list string.

(** [CheckboxPrompt._handle_enter], lines 156-163: the new state and
    the outside calls made, in order. *)
Definition _handle_enter (self : CheckboxPrompt)
  : CheckboxPrompt * list call :=
  let self1 :=
    {| content_control := content_control self;
       status_answered := true;
       status_result := status_result self;
       _invalid := _invalid self;
       _validator := _validator self |} in
  let self2 :=
    {| content_control := content_control self1;
       status_answered := status_answered self1;
       status_result := Some (result_name self1);
       _invalid := _invalid self1;
       _validator := _validator self1 |} in
  (self2, [AppExit (result_value self2)]).

(** Modelled from the spec: [BaseComplexPrompt._handle_enter]
    (InquirerPy/base.py), which the checkbox prompt overrides, is not
    among the sources.  "confirm key -> validate current result (via an
    injected validator capability over the set of enabled values ...) -
    on validation failure, set an invalid flag and re-render with
    invalid_message; on success, finalize with the result ... and
    terminate the interactive loop". *)
Definition base_handle_enter (self : CheckboxPrompt)
  : CheckboxPrompt * list call :=
  match _validator self with
  | None => _handle_enter self
  | Some validate =>
      if validate (result_value self)
      then (fst (_handle_enter self),
            Validate (result_value self) :: snd (_handle_enter self))
      else ({| content_control := content_control self;
               status_answered := status_answered self;
               status_result := status_result self;
               _invalid := true;
               _validator := _validator self |},
            [Validate (result_value self)])
  end.
End Handlers.

End Checkbox.

(** ** The base control, from the specification *)

Module Base.

(** The string form of a value, [str(v)]. *)
Definition str_of (v : pyobj) : string :=
  match v with
  | PyNone => "None"
  | Int n => str n
  | Str s => s
  | Separator line => line
  end.

(** [a == b] on values. *)
Definition pyobj_eqb (a b : pyobj) : bool :=
  match a, b with
  | PyNone, PyNone => true
  | Int m, Int n => m =? n
  | Str s, Str t => String.eqb s t
  | Separator s, Separator t => String.eqb s t
  | _, _ => false
  end.

(** Modelled from the spec: the choice normaliser of
    [InquirerPyUIControl] (InquirerPy/base.py) is not among the sources.
    A raw entry becomes a choice record "with name defaulted to the
    string form of value when absent, enabled defaulted to false"; the
    index keys are for the rawlist control to add. *)
Definition normalise (raw : Checkbox.raw_choice) : choice :=
  match raw with
  | Checkbox.RawDict n v _ =>
      {| name := n; value := v; enabled := false;
         display_index := None; actual_index := None |}
  | Checkbox.RawValue v =>
      {| name := str_of v; value := v; enabled := false;
         display_index := None; actual_index := None |}
  end.

(** The first position at or after [i] whose choice satisfies [p]. *)
Fixpoint find_index (p : choice -> bool) (i : Z) (cs : list choice)
  : option Z :=
  match cs with
  | [] => None
  | c :: rest => if p c then Some i else find_index p (i + 1) rest
  end.

(** Modelled from the spec: the initial cursor, "first non-separator
    index matching the default argument, else the first non-separator
    index". *)
Definition initial_cursor (cs : list choice) (default : pyobj) : option Z :=
  match find_index (fun c => negb (is_separator c)
                             && pyobj_eqb (value c) default) 0 cs with
  | Some i => Some i
  | None => find_index (fun c => negb (is_separator c)) 0 cs
  end.

(** Modelled from the spec: [InquirerPyUIControl.__init__]
    (InquirerPy/base.py) is not among the sources.  It normalises the raw
    entries in order and "fails with an InvalidArgument-class error if the
    list is empty"; "a list with choices consisting entirely of separators
    is invalid (must fail to construct ...)", this degenerate state being
    "a fatal InvalidArgument-class error" that is "raised eagerly at
    construction"; otherwise the cursor takes its initial value. *)
Definition InquirerPyUIControl_init (raws : list Checkbox.raw_choice)
    (default : pyobj) : result InquirerPyUIControl :=
  match map normalise raws with
  | [] => Raise InvalidArgument
  | cs =>
      match initial_cursor cs default with
      | None => Raise InvalidArgument
      | Some i => Ok {| base_choices := cs; base_selected_choice_index := i |}
      end
  end.

End Base.

(** ** The constructors from the raw choices *)

Module Construct.

(** [InquirerPyRawlistControl(choices, default, pointer, separator, marker)]:
    line 29, the base constructor, then lines 31-48. *)
Definition InquirerPyRawlistControl_new (raws : list Checkbox.raw_choice)
    (default : pyobj) (pointer separator marker : string)
  : result Rawlist.InquirerPyRawlistControl :=
  base <- Base.InquirerPyUIControl_init raws default ;;
  Rawlist.InquirerPyRawlistControl_init base default pointer separator marker.

(** [RawlistPrompt(message, choices, default, separator, ...)]. *)
Definition RawlistPrompt_new (raws : list Checkbox.raw_choice)
    (super_init : result (list Rawlist.inherited_binding))
    (default : pyobj) (separator pointer marker : string)
  : result Rawlist.RawlistPrompt :=
  base <- Base.InquirerPyUIControl_init raws default ;;
  Rawlist.RawlistPrompt_init base super_init default separator pointer marker.

(** [InquirerPyCheckboxControl(choices, default, pointer, enabled_symbol,
    disabled_symbol)]: line 45, the base constructor, then lines 47-51;
    it is the first statement of [CheckboxPrompt.__init__] (line 139). *)
Definition InquirerPyCheckboxControl_new (raws : list Checkbox.raw_choice)
    (default : pyobj) (pointer enabled_symbol disabled_symbol : string)
  : result Checkbox.InquirerPyCheckboxControl :=
  base <- Base.InquirerPyUIControl_init raws default ;;
  Ok (Checkbox.InquirerPyCheckboxControl_init raws base pointer
        enabled_symbol disabled_symbol).

End Construct.

Import Utils Rawlist.

(** ** Notions used in the statements *)

(** A choice that is not a separator. *)
Definition selectable (c : choice) : bool := negb (is_separator c).

(** The number of selectable choices before position [i]. *)
Definition rank (cs : list choice) (i : nat) : nat :=
  List.length (filter selectable (firstn i cs)).

(** The position of the [k]-th selectable choice, counting from 0. *)
Fixpoint nth_selectable (cs : list choice) (k : nat) : option nat :=
  match cs with
  | [] => None
  | c :: rest =>
      if selectable c
      then match k with
           | O => Some O
           | S k' => option_map S (nth_selectable rest k')
           end
      else option_map S (nth_selectable rest k)
  end.

(** The cursor after the rawlist control looked at [default]: from the
    first selectable choice it goes to the choice whose display index is
    [default], when there is one. *)
Definition relocated (cs : list choice) (default : pyobj) (first : nat)
    (selected : Z) : Z :=
  if selected =? Z.of_nat first
  then match default with
       | Int d =>
           if 1 <=? d
           then match nth_selectable cs (Z.to_nat (d - 1)) with
                | Some p => Z.of_nat p
                | None => selected
                end
           else selected
       | _ => selected
       end
  else selected.

(** A float that is neither an infinity nor a NaN. *)
Definition finite (f : Float.float) : bool :=
  match f with
  | S754_zero _ | S754_finite _ _ _ => true
  | S754_infinity _ | S754_nan => false
  end.

(** An argument whose string, once the percent signs are gone, is not an
    integer literal. *)
Definition unparsable (a : option int_or_str) : Prop :=
  exists s, a = Some (PyStr s) /\ s <> ""
            /\ parse_int (remove_char "%" s) = None.

(** Normalised choices as the base constructor leaves them: a separator
    and a plain string value, neither enabled nor indexed. *)
Definition separator_choice (line : string) : choice :=
  {| name := line; value := Separator line; enabled := false;
     display_index := None; actual_index := None |}.

Definition plain_choice (s : string) : choice :=
  {| name := s; value := Str s; enabled := false;
     display_index := None; actual_index := None |}.

(** The prompt over [[Separator, "a", "b", "c"]] with the cursor where the
    base constructor puts it, on the first selectable choice. *)
Definition abc_base : InquirerPyUIControl :=
  {| base_choices := [separator_choice "---------------"; plain_choice "a";
                      plain_choice "b"; plain_choice "c"];
     base_selected_choice_index := 1 |}.

(** The choice "b" of that prompt once indexed. *)
Definition abc_b : choice := set_indices 2 2 (plain_choice "b").

(** Bindings of the base class for the example: one on the key "2" too,
    whose handler would put the cursor on the separator. *)
Definition abc_inherited : list inherited_binding :=
  [ {| inherited_key := "2";
       inherited_handler := fun control =>
         Ok {| _pointer := _pointer control;
               _separator := _separator control;
               _marker := _marker control;
               choices := choices control;
               selected_choice_index := 0 |} |} ].

(** The prompt that the construction yields. *)
Definition abc_prompt : RawlistPrompt :=
  {| content_control :=
       {| _pointer := " "; _separator := ")"; _marker := ">";
          choices := [separator_choice "---------------";
                      set_indices 1 1 (plain_choice "a");
                      abc_b;
                      set_indices 3 3 (plain_choice "c")];
          selected_choice_index := 1 |};
     inherited_kb := abc_inherited;
     kb := [ {| key := "1"; captured_choice := 1 |};
             {| key := "2"; captured_choice := 2 |};
             {| key := "3"; captured_choice := 3 |} ] |}.

(** A checkbox control and prompt over the same raw choices, with a
    validator that refuses every selection. *)
Definition abc_checkbox : Checkbox.InquirerPyCheckboxControl :=
  Checkbox.InquirerPyCheckboxControl_init
    [Checkbox.RawValue (Separator "---------------");
     Checkbox.RawValue (Str "a"); Checkbox.RawValue (Str "b");
     Checkbox.RawValue (Str "c")]
    abc_base ">" "[x]" "[ ]".

Definition abc_checkbox_prompt : Checkbox.CheckboxPrompt :=
  {| Checkbox.content_control := abc_checkbox;
     Checkbox.status_answered := false;
     Checkbox.status_result := None;
     Checkbox._invalid := false;
     Checkbox._validator := Some (fun _ => false) |}.

(** Raw choices that are separators, every one of them; the empty list
    is among these. *)
Definition all_separators (raws : list Checkbox.raw_choice) : bool :=
  forallb (fun raw => is_separator (Base.normalise raw)) raws.

(** The raw choices [[Separator(), {"name": "group", "value": Separator()}]]. *)
Definition two_separators : list Checkbox.raw_choice :=
  [Checkbox.RawValue (Separator "---------------");
   Checkbox.RawDict "group" (Separator "---------------") None].

(** The text of a row, its segments put together, and its width. *)
Definition row_text (segments : list segment) : string :=
  fold_right (fun seg rest => snd seg ++ rest) "" segments.

Definition row_width (segments : list segment) : nat :=
  String.length (row_text segments).

(** The flag that the checkbox control reads off a raw entry. *)
Definition raw_flag (raw : Checkbox.raw_choice) : bool :=
  match raw with
  | Checkbox.RawDict _ _ (Some b) => b
  | _ => false
  end.

(** [s.upper()] on ASCII letters. *)
Definition upper_char (c : ascii) : ascii :=
  let n := nat_of_ascii c in
  if Nat.leb 97 n && Nat.leb n 122 then ascii_of_nat (n - 32) else c.

Fixpoint upper (s : string) : string :=
  match s with
  | EmptyString => EmptyString
  | String c r => String (upper_char c) (upper r)
  end.

(** The integers [0 .. n-1]. *)
Definition zrange (n : nat) : list Z := map Z.of_nat (seq 0 n).

(** The percentage formula is within one row below the exact quotient. *)
Definition percent_close (term_lines height : Z) : bool :=
  match percent_rows term_lines 0 height with
  | Ok rows =>
      (0 <=? rows)
      && (term_lines * height / 100 - 1 <=? rows)
      && (rows <=? term_lines * height / 100)
  | Raise _ => false
  end.

(** The cursor rests on a choice that is not a separator. *)
Definition on_selectable (cs : list choice) (cursor : Z) : Prop :=
  0 <= cursor
  /\ exists c, nth_error cs (Z.to_nat cursor) = Some c /\ is_separator c = false.

(** * Properties *)

(** ** The height of the choice window *)

Section CalculateHeight.

Variables term_lines offset : Z.

Lemma shr_1_nonneg mrs : 0 <= shr_m mrs -> 0 <= shr_m (shr_1 mrs).
Proof.
  destruct mrs as [m r s]; simpl.
  destruct m as [|p|p]; simpl; try lia; intros _; destruct p; simpl; lia.
Qed.

Lemma iter_shr_1_nonneg p : forall mrs,
  0 <= shr_m mrs -> 0 <= shr_m (iter_pos shr_1 p mrs).
Proof.
  induction p as [p IH|p IH|]; simpl; intros mrs H.
  - apply IH, IH, shr_1_nonneg, H.
  - apply IH, IH, H.
  - apply shr_1_nonneg, H.
Qed.

Lemma shr_fexp_nonneg m e l :
  0 <= m -> 0 <= shr_m (fst (shr_fexp Float.prec Float.emax m e l)).
Proof.
  intros H. unfold shr_fexp, shr.
  assert (H0 : 0 <= shr_m (shr_record_of_loc m l))
    by (destruct l as [|[]]; simpl; exact H).
  destruct (_ - e) as [|p|p]; simpl; auto using iter_shr_1_nonneg.
Qed.

Lemma round_nearest_even_nonneg m l : 0 <= m -> 0 <= round_nearest_even m l.
Proof.
  intros H. destruct l as [|[]]; simpl; try lia.
  destruct (Z.even m); lia.
Qed.

(** Rounding a non-negative mantissa never produces a NaN. *)
Lemma binary_round_aux_not_nan s m e l :
  0 <= m -> binary_round_aux Float.prec Float.emax s m e l <> S754_nan.
Proof.
  intros H. unfold binary_round_aux.
  pose proof (shr_fexp_nonneg m e l H) as H1.
  destruct (shr_fexp Float.prec Float.emax m e l) as [mrs' e'].
  simpl in H1.
  pose proof (shr_fexp_nonneg _ e' loc_Exact
                (round_nearest_even_nonneg _ (loc_of_shr_record mrs') H1)) as H2.
  destruct (shr_fexp Float.prec Float.emax _ e' loc_Exact) as [mrs'' e''].
  simpl in H2.
  destruct (shr_m mrs'') as [|p|p]; try discriminate; try lia.
  destruct (e'' <=? _); discriminate.
Qed.

Lemma true_div_finite a b f : Float.true_div a b = Ok f -> finite f = true.
Proof.
  unfold Float.true_div. destruct (b =? 0) eqn:Hb; [discriminate|].
  destruct (SFdiv _ _ _ _) as [s|s| |s m e] eqn:Hq; try discriminate;
    intros [= <-]; try reflexivity.
  exfalso. revert Hq.
  destruct a as [|pa|pa], b as [|pb|pb]; try discriminate; simpl;
    unfold SFdiv_core_binary;
    match goal with
    | |- context [Z.div_eucl ?x ?y] =>
        pose proof (Z.div_pos x y) as Hdiv; unfold Z.div in Hdiv;
        destruct (Z.div_eucl x y) as [q r]
    end;
    apply binary_round_aux_not_nan; simpl in Hdiv; apply Hdiv; try lia;
    match goal with
    | |- 0 <= match ?z with _ => _ end =>
        destruct z; try lia; apply Z.shiftl_nonneg; lia
    end.
Qed.

Lemma of_int_finite n f : Float.of_int n = Ok f -> finite f = true.
Proof.
  unfold Float.of_int.
  destruct (binary_normalize _ _ _ _ _) as [s|s| |s m e] eqn:Hn; try discriminate;
    intros [= <-]; try reflexivity.
  exfalso. revert Hn.
  destruct n as [|pn|pn]; simpl; try discriminate; unfold binary_round;
    destruct (shl_align _ _ _) as [mz ez];
    apply binary_round_aux_not_nan; lia.
Qed.

Lemma SFmul_not_nan x y :
  finite x = true -> finite y = true ->
  SFmul Float.prec Float.emax x y <> S754_nan.
Proof.
  destruct x, y; simpl; try discriminate; intros _ _.
  apply binary_round_aux_not_nan. lia.
Qed.

(** The percentage formula raises nothing that the [except ValueError]
    clause would catch. *)
Lemma percent_rows_outcome n :
  (exists r, percent_rows term_lines offset n = Ok r)
  \/ percent_rows term_lines offset n = Raise OverflowError.
Proof.
  unfold percent_rows.
  destruct (Float.true_div n 100) as [ratio|e] eqn:Hd; simpl.
  2:{ right. revert Hd. unfold Float.true_div. simpl.
      destruct (SFdiv _ _ _ _); try discriminate. intros [= <-]. reflexivity. }
  unfold Float.int_mul.
  destruct (Float.of_int term_lines) as [t|e] eqn:Ht; simpl.
  2:{ right. revert Ht. unfold Float.of_int.
      destruct (binary_normalize _ _ _ _ _); try discriminate.
      intros [= <-]. reflexivity. }
  pose proof (SFmul_not_nan t ratio (of_int_finite _ _ Ht)
                (true_div_finite _ _ _ Hd)) as Hm.
  destruct (SFmul Float.prec Float.emax t ratio); simpl; eauto.
  congruence.
Qed.

Lemma clamp_range dh dmh h :
  clamp dh dmh = Some h -> 0 <= h /\ h <= Z.max dmh 1.
Proof.
  unfold clamp, truth_int.
  destruct dh as [d|]; [|discriminate].
  destruct (d =? 0) eqn:Hz, (dmh <? d) eqn:Hgt; simpl;
    repeat match goal with
           | |- context [?a =? ?b] => destruct (Z.eqb_spec a b); simpl
           | |- context [?a <? ?b] => destruct (Z.ltb_spec a b); simpl
           end;
    intros [= <-];
    repeat match goal with
           | H : (_ =? _) = _ |- _ => first [apply Z.eqb_eq in H | apply Z.eqb_neq in H]
           | H : (_ <? _) = _ |- _ => first [apply Z.ltb_lt in H | apply Z.ltb_ge in H]
           end; lia.
Qed.

Lemma calculate_height_ok height max_height r :
  calculate_height term_lines height max_height offset = Ok r ->
  exists dh dmh,
    dimmension_height term_lines offset height = Ok dh
    /\ dimmension_max_height term_lines offset max_height = Ok dmh
    /\ r = (clamp dh dmh, dmh).
Proof.
  unfold calculate_height.
  destruct (dimmension_height _ _ _) as [dh|e]; simpl.
  - destruct (dimmension_max_height _ _ _) as [dmh|e]; simpl.
    + intros [= <-]. eauto.
    + destruct (exn_eqb e ValueError); discriminate.
  - destruct (exn_eqb e ValueError); discriminate.
Qed.

(** A string argument that is not empty goes through [int()] and the
    percentage formula. *)
Lemma percentage_parsed s n :
  parse_int (remove_char "%" s) = Some n ->
  percentage term_lines offset s = percent_rows term_lines offset n.
Proof. unfold percentage, int_of_str. intros ->. reflexivity. Qed.

Lemma percentage_unparsed s :
  parse_int (remove_char "%" s) = None ->
  percentage term_lines offset s = Raise ValueError.
Proof. unfold percentage, int_of_str. intros ->. reflexivity. Qed.

Lemma percentage_ValueError s :
  percentage term_lines offset s = Raise ValueError ->
  parse_int (remove_char "%" s) = None.
Proof.
  destruct (parse_int (remove_char "%" s)) as [n|] eqn:Hp; [|reflexivity].
  rewrite (percentage_parsed _ _ Hp).
  destruct (percent_rows_outcome n) as [[r ->]| ->]; discriminate.
Qed.

Lemma nonempty_truth s : s <> "" -> truth (Some (PyStr s)) = true.
Proof.
  intros H. simpl. destruct (String.eqb_spec s ""); [contradiction|reflexivity].
Qed.

Lemma dimmension_height_ValueError height :
  dimmension_height term_lines offset height = Raise ValueError <->
  unparsable height.
Proof.
  unfold dimmension_height, unparsable. split.
  - destruct height as [[n|s]|]; simpl.
    + destruct (n =? 0); discriminate.
    + destruct (String.eqb_spec s ""); simpl; [discriminate|].
      destruct (percentage term_lines offset s) as [r|e] eqn:Hp; simpl;
        [discriminate|].
      intros [= ->]. eauto using percentage_ValueError.
    + discriminate.
  - intros (s & -> & Hs & Hp).
    rewrite (nonempty_truth _ Hs). simpl.
    rewrite (percentage_unparsed _ Hp). reflexivity.
Qed.

Lemma dimmension_max_height_ValueError max_height :
  dimmension_max_height term_lines offset max_height = Raise ValueError <->
  unparsable max_height.
Proof.
  unfold dimmension_max_height, unparsable. split.
  - destruct max_height as [[n|s]|]; simpl.
    + destruct (n =? 0); discriminate.
    + destruct (String.eqb_spec s ""); simpl; [discriminate|].
      eauto using percentage_ValueError.
    + discriminate.
  - intros (s & -> & Hs & Hp).
    rewrite (nonempty_truth _ Hs). simpl.
    apply percentage_unparsed, Hp.
Qed.

(** No stage raises [InvalidArgument] itself: it only comes out of the
    [except ValueError] clause. *)
Lemma percentage_not_InvalidArgument s :
  percentage term_lines offset s <> Raise InvalidArgument.
Proof.
  unfold percentage, int_of_str.
  destruct (parse_int _) as [n|]; simpl; [|discriminate].
  destruct (percent_rows_outcome n) as [[r ->]| ->]; discriminate.
Qed.

Lemma dimmension_height_not_InvalidArgument height :
  dimmension_height term_lines offset height <> Raise InvalidArgument.
Proof.
  unfold dimmension_height.
  destruct height as [[n|s]|]; simpl; try discriminate.
  - destruct (n =? 0); discriminate.
  - destruct (String.eqb s ""); simpl; [discriminate|].
    pose proof (percentage_not_InvalidArgument s) as H.
    destruct (percentage term_lines offset s); simpl; congruence.
Qed.

Lemma dimmension_max_height_not_InvalidArgument max_height :
  dimmension_max_height term_lines offset max_height <> Raise InvalidArgument.
Proof.
  unfold dimmension_max_height.
  destruct max_height as [[n|s]|]; simpl; try discriminate.
  - destruct (n =? 0); discriminate.
  - destruct (String.eqb s ""); simpl; [discriminate|].
    apply percentage_not_InvalidArgument.
Qed.

Lemma calculate_height_InvalidArgument height max_height :
  calculate_height term_lines height max_height offset = Raise InvalidArgument
  <-> unparsable height
      \/ ((exists dh, dimmension_height term_lines offset height = Ok dh)
          /\ unparsable max_height).
Proof.
  rewrite <- dimmension_height_ValueError, <- dimmension_max_height_ValueError.
  unfold calculate_height.
  pose proof (dimmension_height_not_InvalidArgument height) as Hh.
  pose proof (dimmension_max_height_not_InvalidArgument max_height) as Hm.
  destruct (dimmension_height _ _ _) as [dh|e]; simpl.
  - destruct (dimmension_max_height _ _ _) as [dmh|e]; simpl.
    + split; [discriminate|]. intros [H|[_ H]]; discriminate.
    + destruct e; simpl; split; try discriminate; try congruence; eauto;
        intros [H|[_ H]]; discriminate.
  - destruct e; simpl; split; try discriminate; try congruence; eauto;
      intros [H|[[dh H] _]]; discriminate.
Qed.

(** C6, as amended: whenever [calculate_height] returns a height that is
    not [None], that height is never negative and never exceeds the larger
    of the returned max_height and 1; hence it never exceeds the returned
    max_height when the latter is at least 1.  It is the result of the two
    clamping statements applied, in order, to the computed dimensions. *)
Theorem calculate_height_clamped height max_height h m :
  calculate_height term_lines height max_height offset = Ok (Some h, m) ->
  0 <= h
  /\ h <= Z.max m 1
  /\ (1 <= m -> h <= m)
  /\ exists dh,
       dimmension_height term_lines offset height = Ok (Some dh)
       /\ dimmension_max_height term_lines offset max_height = Ok m
       /\ h = (let h1 := if negb (dh =? 0) && (m <? dh) then m else dh in
               if negb (h1 =? 0) && (h1 <? 0) then 1 else h1).
Proof.
  intros H.
  destruct (calculate_height_ok _ _ _ H) as (dh & dmh & Hh & Hm & [= Hc <-]).
  symmetry in Hc. destruct (clamp_range _ _ _ Hc) as [Hlo Hhi].
  repeat split; try lia.
  destruct dh as [d|]; [|discriminate].
  exists d. repeat split; trivial.
  revert Hc. unfold clamp, truth_int.
  destruct (negb (d =? 0) && (m <? d)); simpl;
    match goal with
    | |- context [if ?b then _ else _] => destruct b
    end; congruence.
Qed.

(** C7, as amended: an integer height other than 0 is the height
    dimension as it is (before clamping); the integer 0 gives [None], and
    the dimension is [None] exactly when the argument is [None], the
    integer 0 or the empty string. *)
Theorem dimmension_height_of_int :
  (forall n : Z,
      dimmension_height term_lines offset (Some (PyInt n))
      = Ok (if n =? 0 then None else Some n))
  /\ (forall height,
        dimmension_height term_lines offset height = Ok None
        <-> height = None \/ height = Some (PyInt 0)
            \/ height = Some (PyStr "")).
Proof.
  split.
  - intros n. unfold dimmension_height. simpl. destruct (n =? 0); reflexivity.
  - intros height. unfold dimmension_height. split.
    + destruct height as [[n|s]|]; simpl; auto.
      * destruct (Z.eqb_spec n 0); simpl; [subst; auto|discriminate].
      * destruct (String.eqb_spec s ""); simpl; [subst; auto|].
        destruct (percentage _ _ _); discriminate.
    + intros [->|[->| ->]]; reflexivity.
Qed.

(** C10, as amended: a string argument that is not empty makes
    [calculate_height] raise [InvalidArgument] when, all percent signs
    removed, it is not an integer literal (for max_height, once the height
    argument has been processed without error); [InvalidArgument] is raised
    for no other reason; and a string that does parse always goes through
    the percentage formula, wherever its percent signs stand and even
    without any, never standing for a number of rows. *)
Theorem calculate_height_string_arguments :
  (forall s max_height,
      s <> "" -> parse_int (remove_char "%" s) = None ->
      calculate_height term_lines (Some (PyStr s)) max_height offset
      = Raise InvalidArgument)
  /\ (forall s height dh,
        s <> "" -> parse_int (remove_char "%" s) = None ->
        dimmension_height term_lines offset height = Ok dh ->
        calculate_height term_lines height (Some (PyStr s)) offset
        = Raise InvalidArgument)
  /\ (forall height max_height,
        calculate_height term_lines height max_height offset
        = Raise InvalidArgument ->
        unparsable height \/ unparsable max_height)
  /\ (forall s n,
        s <> "" -> parse_int (remove_char "%" s) = Some n ->
        dimmension_height term_lines offset (Some (PyStr s))
        = (r <- percent_rows term_lines offset n ;; Ok (Some r))
        /\ dimmension_max_height term_lines offset (Some (PyStr s))
           = percent_rows term_lines offset n)
  /\ (forall s s' max_height,
        s <> "" -> s' <> "" -> remove_char "%" s = remove_char "%" s' ->
        calculate_height term_lines (Some (PyStr s)) max_height offset
        = calculate_height term_lines (Some (PyStr s')) max_height offset).
Proof.
  split; [|split; [|split; [|split]]].
  - intros s mh Hs Hp. apply calculate_height_InvalidArgument.
    left. exists s. auto.
  - intros s h dh Hs Hp Hh. apply calculate_height_InvalidArgument.
    right. split; [eauto|]. exists s. auto.
  - intros h mh H. apply calculate_height_InvalidArgument in H.
    destruct H as [H|[_ H]]; auto.
  - intros s n Hs Hp.
    unfold dimmension_height, dimmension_max_height.
    rewrite (nonempty_truth _ Hs). simpl.
    rewrite (percentage_parsed _ _ Hp). split; reflexivity.
  - intros s s' mh Hs Hs' E.
    unfold calculate_height, dimmension_height.
    rewrite (nonempty_truth _ Hs), (nonempty_truth _ Hs'). simpl.
    unfold percentage. rewrite E. reflexivity.
Qed.

End CalculateHeight.

(** The percentage is computed in binary floating point: with 100
    terminal lines "29%" gives 28 rows before the offset, since
    [29 / 100] rounds below 0.29, where exact arithmetic gives 29. *)
Theorem percentage_is_floating_point :
  percentage 100 0 "29%" = Ok 28
  /\ (100 * 29) / 100 = 29
  /\ calculate_height 100 (Some (PyStr "29%")) None 0 = Ok (Some 28, 100).
Proof. repeat split; vm_compute; reflexivity. Qed.

(** C5: the four sample calls with 40 terminal lines and offset 1. *)
Theorem calculate_height_samples :
  calculate_height 40 None None 1 = Ok (None, 39)
  /\ calculate_height 40 (Some (PyStr "50%")) None 1 = Ok (Some 19, 39)
  /\ calculate_height 40 (Some (PyInt 100)) (Some (PyInt 10)) 1 = Ok (Some 10, 10)
  /\ calculate_height 40 (Some (PyStr "abc")) None 1 = Raise InvalidArgument.
Proof. repeat split; vm_compute; reflexivity. Qed.

(** A run of the clamp theorem: [calculate_height(100, 10)]. *)
Lemma calculate_height_clamped_witness :
  0 <= 10
  /\ 10 <= Z.max 10 1
  /\ (1 <= 10 -> 10 <= 10)
  /\ exists dh,
       dimmension_height 40 1 (Some (PyInt 100)) = Ok (Some dh)
       /\ dimmension_max_height 40 1 (Some (PyInt 10)) = Ok 10
       /\ 10 = (let h1 := if negb (dh =? 0) && (10 <? dh) then 10 else dh in
                if negb (h1 =? 0) && (h1 <? 0) then 1 else h1).
Proof.
  apply (calculate_height_clamped 40 1 (Some (PyInt 100)) (Some (PyInt 10)) 10 10).
  reflexivity.
Defined.

(** C6 as stated fails: with 40 terminal lines, [calculate_height(10, "1%")]
    returns the height 1 above the max_height -1. *)
Lemma calculate_height_above_max_height :
  calculate_height 40 (Some (PyInt 10)) (Some (PyStr "1%")) 1 = Ok (Some 1, -1)
  /\ ~ (1 <= -1).
Proof. split; [vm_compute; reflexivity | lia]. Qed.

(** C7 as stated fails at the integer 0: the height dimension is [None],
    not 0, although the height argument is set. *)
Lemma dimmension_height_zero_is_None :
  dimmension_height 40 1 (Some (PyInt 0)) = Ok None
  /\ dimmension_height 40 1 (Some (PyInt 0)) <> Ok (Some 0)
  /\ calculate_height 40 (Some (PyInt 0)) None 1 = Ok (None, 39).
Proof. repeat split; try reflexivity. discriminate. Qed.

(** C10 as stated fails at the empty string: without percent signs it is
    no integer literal, yet it is taken as unset and nothing is raised. *)
Lemma calculate_height_empty_string :
  parse_int (remove_char "%" "") = None
  /\ calculate_height 40 (Some (PyStr "")) None 1 = Ok (None, 39)
  /\ calculate_height 40 None (Some (PyStr "")) 1 = Ok (None, 39).
Proof. repeat split; reflexivity. Qed.

(** The strings of C10 all stand for 60 percent of the terminal height. *)
Lemma calculate_height_sixty_percent :
  calculate_height 40 (Some (PyStr "60")) None 1 = Ok (Some 23, 39)
  /\ calculate_height 40 (Some (PyStr "%60")) None 1 = Ok (Some 23, 39)
  /\ calculate_height 40 (Some (PyStr "6%0")) None 1 = Ok (Some 23, 39)
  /\ calculate_height 40 (Some (PyStr "60%")) None 1 = Ok (Some 23, 39)
  /\ calculate_height 40 (Some (PyInt 60)) None 1 = Ok (Some 39, 39).
Proof. repeat split; vm_compute; reflexivity. Qed.

(** ** The rawlist indexer *)

Section Indexer.

Lemma set_indices_ext d d' a a' c :
  d = d' -> a = a' -> set_indices d a c = set_indices d' a' c.
Proof. intros -> ->. reflexivity. Qed.

Lemma selectable_set_indices d a c :
  selectable (set_indices d a c) = selectable c.
Proof. reflexivity. Qed.

Lemma rank_cons c cs i :
  rank (c :: cs) (S i) = ((if selectable c then 1 else 0) + rank cs i)%nat.
Proof. unfold rank. simpl. destruct (selectable c); reflexivity. Qed.

Lemma index_choices_length cs : forall index separator_count,
  List.length (index_choices index separator_count cs) = List.length cs.
Proof.
  induction cs as [|c cs IH]; intros index sc; simpl; [reflexivity|].
  destruct (isinstance_Separator (value c)); simpl; rewrite IH; reflexivity.
Qed.

(** The entry at position [i] after the loop that started with the
    counters [index] and [separator_count]. *)
Lemma index_choices_nth cs : forall index separator_count i,
  nth_error (index_choices index separator_count cs) i
  = option_map
      (fun c =>
         if is_separator c then c
         else set_indices (index + 1 - separator_count + Z.of_nat (rank cs i))
                          (index + Z.of_nat i) c)
      (nth_error cs i).
Proof.
  induction cs as [|c cs IH]; intros index sc i.
  - destruct i; reflexivity.
  - destruct i as [|i].
    + simpl. unfold is_separator.
      destruct (isinstance_Separator (value c)); simpl; [reflexivity|].
      f_equal. apply set_indices_ext; lia.
    + rewrite rank_cons. unfold selectable, is_separator. simpl.
      destruct (isinstance_Separator (value c)) eqn:Hc; simpl; rewrite IH;
        destruct (nth_error cs i) as [c'|]; simpl; trivial;
        unfold is_separator; destruct (isinstance_Separator (value c'));
        trivial; f_equal; apply set_indices_ext; lia.
Qed.

Lemma index_choices_nth0 cs i :
  nth_error (index_choices 0 0 cs) i
  = option_map
      (fun c =>
         if is_separator c then c
         else set_indices (Z.of_nat (rank cs i) + 1) (Z.of_nat i) c)
      (nth_error cs i).
Proof.
  rewrite index_choices_nth.
  destruct (nth_error cs i) as [c|]; cbn [option_map]; trivial.
  destruct (is_separator c); trivial. f_equal. apply set_indices_ext; lia.
Qed.

Lemma index_choices_display cs : forall index separator_count,
  map display_index (filter selectable (index_choices index separator_count cs))
  = map (fun k => Some (index + 1 - separator_count + Z.of_nat k))
        (seq 0 (List.length (filter selectable cs))).
Proof.
  induction cs as [|c cs IH]; intros index sc; simpl; [reflexivity|].
  unfold selectable at 2, is_separator.
  destruct (isinstance_Separator (value c)) eqn:Hc; simpl.
  - unfold selectable at 1, is_separator. rewrite Hc. simpl.
    rewrite IH. apply map_ext. intros k. f_equal. lia.
  - rewrite selectable_set_indices. unfold selectable at 1, is_separator.
    rewrite Hc. simpl. f_equal; [f_equal; lia|].
    rewrite IH, <- seq_shift, map_map. apply map_ext. intros k. f_equal. lia.
Qed.

(** A selectable choice has fewer selectable choices before it than the
    list has in all. *)
Lemma rank_bound cs : forall i c,
  nth_error cs i = Some c -> selectable c = true ->
  (rank cs i < List.length (filter selectable cs))%nat.
Proof.
  induction cs as [|x cs IH]; intros [|i] c H Hs; try discriminate.
  - simpl in H. injection H as ->. unfold rank. simpl. rewrite Hs. simpl. lia.
  - rewrite rank_cons. simpl in H. specialize (IH i c H Hs). simpl.
    destruct (selectable x); simpl; lia.
Qed.

(** C1: after the indexing loop the display indices of the selectable
    choices, read in list order, are exactly 1, 2, 3, ...; the selectable
    choice at position [i], the [k]-th of them counting from 0, holds
    display index [k + 1] and actual index [i], its position in the list,
    and is otherwise as it was; a separator is left as it was, with no
    index of either kind.  The actual indices of the selectable choices,
    read in list order, are their positions. *)
Theorem rawlist_indexer cs :
  map display_index (filter selectable (index_choices 0 0 cs))
  = map (fun k => Some (Z.of_nat k))
        (seq 1 (List.length (filter selectable cs)))
  /\ (forall i,
        nth_error (index_choices 0 0 cs) i
        = option_map
            (fun c =>
               if is_separator c then c
               else set_indices (Z.of_nat (rank cs i) + 1) (Z.of_nat i) c)
            (nth_error cs i))
  /\ List.length (index_choices 0 0 cs) = List.length cs
  /\ (forall i line,
        nth_error cs i = Some (separator_choice line) ->
        exists c, nth_error (index_choices 0 0 cs) i = Some c
                  /\ is_separator c = true
                  /\ display_index c = None /\ actual_index c = None)
  /\ (forall i c0,
        nth_error cs i = Some c0 -> is_separator c0 = false ->
        exists c, nth_error (index_choices 0 0 cs) i = Some c
                  /\ display_index c = Some (Z.of_nat (rank cs i) + 1)
                  /\ actual_index c = Some (Z.of_nat i)
                  /\ name c = name c0 /\ value c = value c0
                  /\ enabled c = enabled c0)
  /\ (forall i c,
        nth_error (index_choices 0 0 cs) i = Some c -> is_separator c = false ->
        actual_index c = Some (Z.of_nat i)
        /\ display_index c = Some (Z.of_nat (rank cs i) + 1)
        /\ (1 <= Z.of_nat (rank cs i) + 1
                <= Z.of_nat (List.length (filter selectable cs))))
  /\ (forall i c0,
        nth_error cs i = Some c0 -> is_separator c0 = true ->
        nth_error (index_choices 0 0 cs) i = Some c0).
Proof.
  split; [|split; [|split; [|split; [|split; [|split]]]]].
  - rewrite index_choices_display, <- seq_shift, map_map.
    apply map_ext. intros k. f_equal. lia.
  - apply index_choices_nth0.
  - apply index_choices_length.
  - intros i line H. rewrite index_choices_nth0, H. simpl. eauto.
  - intros i c0 H Hs. rewrite index_choices_nth0, H. cbn [option_map].
    rewrite Hs. eexists. split; [reflexivity|]. repeat split.
  - intros i c. rewrite index_choices_nth0.
    destruct (nth_error cs i) as [c0|] eqn:E; [|discriminate].
    cbn [option_map]. destruct (is_separator c0) eqn:H0; intros [= <-] Hc.
    + congruence.
    + split; [reflexivity|]. split; [reflexivity|].
      assert (rank cs i < List.length (filter selectable cs))%nat; [|lia].
      apply (rank_bound cs i c0 E). unfold selectable. rewrite H0. reflexivity.
  - intros i c0 H Hs. rewrite index_choices_nth0, H. cbn [option_map].
    rewrite Hs. reflexivity.
Qed.

End Indexer.

(** ** The rawlist jump keys *)

Section JumpKeys.

(** [str] is injective on integers. *)
Lemma str_inj a b : str a = str b -> a = b.
Proof.
  unfold str. intros H.
  assert (Hnil : forall n, Z.to_int n <> Decimal.Pos Decimal.Nil
                           /\ Z.to_int n <> Decimal.Neg Decimal.Nil).
  { intros [|p|p]; simpl; split; try discriminate;
      intros [= E]; exact (DecimalPos.Unsigned.to_uint_nonnil p E). }
  pose proof (NilZero.isi (Z.to_int a) (proj1 (Hnil a)) (proj2 (Hnil a))) as Ha.
  pose proof (NilZero.isi (Z.to_int b) (proj1 (Hnil b)) (proj2 (Hnil b))) as Hb.
  rewrite H, Hb in Ha. injection Ha as Ha.
  rewrite <- (DecimalZ.of_to a), <- (DecimalZ.of_to b), Ha. reflexivity.
Qed.

(** Later selectable choices have a larger rank. *)
Lemma rank_lt cs : forall i j c,
  (i < j)%nat -> nth_error cs i = Some c -> selectable c = true ->
  (rank cs i < rank cs j)%nat.
Proof.
  induction cs as [|x cs IH]; intros i j c Hij Hi Hc.
  - destruct i; discriminate.
  - destruct j as [|j]; [lia|]. rewrite rank_cons.
    destruct i as [|i].
    + injection Hi as ->. rewrite Hc. unfold rank. simpl. lia.
    + rewrite rank_cons. simpl in Hi.
      assert (rank cs i < rank cs j)%nat by (apply (IH i j c); auto; lia).
      lia.
Qed.

Lemma rank_inj cs i j c c' :
  nth_error cs i = Some c -> selectable c = true ->
  nth_error cs j = Some c' -> selectable c' = true ->
  rank cs i = rank cs j -> i = j.
Proof.
  intros Hi Hc Hj Hc' E.
  destruct (Nat.lt_trichotomy i j) as [H|[H|H]]; trivial.
  - pose proof (rank_lt cs i j c H Hi Hc). lia.
  - pose proof (rank_lt cs j i c' H Hj Hc'). lia.
Qed.

(** What the indexing loop leaves at a selectable position. *)
Lemma indexed_selectable cs i c :
  nth_error (index_choices 0 0 cs) i = Some c -> is_separator c = false ->
  display_index c = Some (Z.of_nat (rank cs i) + 1)
  /\ actual_index c = Some (Z.of_nat i)
  /\ exists c0, nth_error cs i = Some c0 /\ selectable c0 = true.
Proof.
  rewrite index_choices_nth0.
  destruct (nth_error cs i) as [c0|]; [|discriminate].
  cbn [option_map]. unfold selectable.
  destruct (is_separator c0) eqn:H0; intros [= <-] Hc.
  - congruence.
  - split; [reflexivity|]. split; [reflexivity|].
    exists c0. rewrite H0. auto.
Qed.

(** The numerals of one character are those of 0 to 9. *)
Lemma str_one_character d : String.length (str d) = 1%nat <-> 0 <= d <= 9.
Proof.
  split.
  - unfold str. intros H. rewrite <- (DecimalZ.of_to d).
    destruct (Z.to_int d) as [u|u]; simpl in H.
    + destruct u as [|v|v|v|v|v|v|v|v|v|v];
        try (vm_compute; split; discriminate);
        destruct v; try discriminate; vm_compute; split; discriminate.
    + destruct u as [|v|v|v|v|v|v|v|v|v|v]; try discriminate;
        destruct v; discriminate.
  - intros H.
    assert (E : d = 0 \/ d = 1 \/ d = 2 \/ d = 3 \/ d = 4 \/ d = 5 \/ d = 6
                \/ d = 7 \/ d = 8 \/ d = 9) by lia.
    repeat (destruct E as [->|E]; [reflexivity|]). subst d. reflexivity.
Qed.

Lemma kb_add_Ok k k' : kb_add k = Ok k' -> k' = k /\ String.length k = 1%nat.
Proof.
  unfold kb_add. destruct (Nat.eqb_spec (String.length k) 1); [|discriminate].
  intros [= <-]. auto.
Qed.

(** The bindings that the registration loop makes. *)
Lemma register_keybindings_In cs : forall pos bs,
  register_keybindings pos cs = Ok bs ->
  forall b,
    In b bs <->
    exists i c d,
      nth_error cs i = Some c /\ is_separator c = false
      /\ display_index c = Some d
      /\ b = {| key := str d; captured_choice := (pos + i)%nat |}.
Proof.
  induction cs as [|c cs IH]; intros pos bs H b.
  - injection H as <-. split; [contradiction|].
    intros ([|i] & c & d & Hi & _); discriminate.
  - simpl in H. unfold is_separator in *.
    destruct (isinstance_Separator (value c)) eqn:Hc; simpl in H.
    + rewrite (IH _ _ H b). split.
      * intros (i & c' & d & Hi & Hs & Hd & ->).
        exists (S i), c', d. repeat split; trivial. f_equal. lia.
      * intros ([|i] & c' & d & Hi & Hs & Hd & ->); simpl in Hi.
        -- injection Hi as <-. congruence.
        -- exists i, c', d. repeat split; trivial. f_equal. lia.
    + unfold keybinding_factory in H.
      destruct (display_index c) as [d0|] eqn:Hd0; simpl in H; [|discriminate].
      destruct (kb_add (str d0)) as [k0|] eqn:Hk0; simpl in H; [|discriminate].
      apply kb_add_Ok in Hk0. destruct Hk0 as [-> _].
      destruct (register_keybindings (S pos) cs) as [bs'|] eqn:Hr;
        simpl in H; [|discriminate].
      injection H as <-. simpl. rewrite (IH _ _ Hr b). split.
      * intros [<-|(i & c' & d & Hi & Hs & Hd & ->)].
        -- exists 0%nat, c, d0. repeat split; trivial. f_equal. lia.
        -- exists (S i), c', d. repeat split; trivial. f_equal. lia.
      * intros ([|i] & c' & d & Hi & Hs & Hd & ->); simpl in Hi.
        -- injection Hi as <-. left. rewrite Hd0 in Hd.
           injection Hd as <-. f_equal. lia.
        -- right. exists i, c', d. repeat split; trivial. f_equal. lia.
Qed.

(** The registration loop on indexed choices: it goes through when the
    display indices stop at 9 and ends in [ValueError] at the first one
    above. *)
Lemma register_keybindings_indexed cs : forall pos index separator_count,
  1 <= index + 1 - separator_count ->
  (Z.of_nat (List.length (filter selectable cs)) = 0
   \/ index + 1 - separator_count
      + Z.of_nat (List.length (filter selectable cs)) <= 10 ->
   exists bs,
     register_keybindings pos (index_choices index separator_count cs) = Ok bs)
  /\ (1 <= Z.of_nat (List.length (filter selectable cs)) ->
      10 < index + 1 - separator_count
           + Z.of_nat (List.length (filter selectable cs)) ->
      register_keybindings pos (index_choices index separator_count cs)
      = Raise ValueError).
Proof.
  induction cs as [|c cs IH]; intros pos index sc Hb.
  - simpl. split; [eauto|lia].
  - assert (Hsel : selectable c = negb (isinstance_Separator (value c)))
      by reflexivity.
    cbn [index_choices filter]. rewrite Hsel.
    destruct (isinstance_Separator (value c)) eqn:Hc;
      cbn [negb register_keybindings set_indices value List.length];
      rewrite Hc; cbn [negb].
    + destruct (IH (S pos) (index + 1) (sc + 1)) as [Hok Herr]; [lia|].
      replace (index + 1 + 1 - (sc + 1)) with (index + 1 - sc) in * by lia.
      auto.
    + destruct (IH (S pos) (index + 1) sc) as [Hok Herr]; [lia|].
      unfold keybinding_factory.
      cbn [display_index set_indices getitem bind]. unfold kb_add.
      destruct (Nat.eqb_spec (String.length (str (index + 1 - sc))) 1) as [E|E];
        simpl.
      * apply str_one_character in E. split.
        -- intros H. destruct Hok as [bs ->]; [lia|]. simpl. eauto.
        -- intros _ H. rewrite Herr; [reflexivity|lia|lia].
      * rewrite str_one_character in E. split; [lia|reflexivity].
Qed.

(** Of the bindings registered for a key, the one that runs. *)
Lemma last_binding (k : string) (bs : list keybinding) b0 :
  In b0 bs -> key b0 = k ->
  exists b rest,
    rev (filter (fun b => String.eqb (key b) k) bs) = b :: rest
    /\ In b bs /\ key b = k.
Proof.
  intros Hin Hk.
  assert (H0 : In b0 (rev (filter (fun b => String.eqb (key b) k) bs))).
  { rewrite <- in_rev. apply filter_In. split; trivial.
    apply String.eqb_eq, Hk. }
  destruct (rev _) as [|b rest] eqn:E; [contradiction|].
  exists b, rest. split; trivial.
  assert (Hb : In b (rev (filter (fun b => String.eqb (key b) k) bs)))
    by (rewrite E; left; reflexivity).
  rewrite <- in_rev in Hb. apply filter_In in Hb.
  destruct Hb as [Hb1 Hb2]. apply String.eqb_eq in Hb2. auto.
Qed.

Lemma first_valid_all_separators cs : forall i index separator_count,
  forallb is_separator cs = true ->
  first_valid_choice_index i (index_choices index separator_count cs)
  = Raise IndexError.
Proof.
  induction cs as [|c cs IH]; intros i index sc H; simpl; [reflexivity|].
  simpl in H. apply andb_prop in H. destruct H as [Hc H].
  unfold is_separator in Hc. rewrite Hc. simpl. rewrite Hc. auto.
Qed.

Lemma first_valid_some_selectable cs : forall i index separator_count,
  existsb selectable cs = true ->
  exists k,
    first_valid_choice_index i (index_choices index separator_count cs) = Ok k.
Proof.
  induction cs as [|c cs IH]; intros i index sc H; simpl; [discriminate|].
  simpl in H. unfold selectable at 1, is_separator in H.
  destruct (isinstance_Separator (value c)) eqn:Hc; simpl in *.
  - rewrite Hc. auto.
  - rewrite Hc. eauto.
Qed.

(** On indexed choices the scan for the default reads no missing key. *)
Lemma find_default_indexed default cs : forall index separator_count,
  exists found,
    find_default default (index_choices index separator_count cs) = Ok found.
Proof.
  induction cs as [|c cs IH]; intros index sc; simpl; [eauto|].
  destruct (isinstance_Separator (value c)) eqn:Hc; simpl; rewrite Hc; auto.
  simpl. destruct (int_eq _ default); simpl; eauto.
Qed.

Lemma first_valid_nth_selectable cs : forall i index separator_count,
  first_valid_choice_index i (index_choices index separator_count cs)
  = match nth_selectable cs 0 with
    | Some p => Ok (i + Z.of_nat p)
    | None => Raise IndexError
    end.
Proof.
  induction cs as [|c cs IH]; intros i index sc; simpl; [reflexivity|].
  unfold selectable, is_separator.
  destruct (isinstance_Separator (value c)) eqn:Hc; simpl; rewrite Hc.
  - rewrite IH. destruct (nth_selectable cs 0); simpl; trivial.
    f_equal. lia.
  - f_equal. lia.
Qed.

Lemma find_default_nth_selectable d cs : forall index separator_count,
  find_default (Int d) (index_choices index separator_count cs)
  = Ok (if index + 1 - separator_count <=? d
        then option_map (fun p => index + Z.of_nat p)
               (nth_selectable cs (Z.to_nat (d - (index + 1 - separator_count))))
        else None).
Proof.
  induction cs as [|c cs IH]; intros index sc; simpl.
  - destruct (_ <=? d); reflexivity.
  - unfold selectable, is_separator.
    destruct (isinstance_Separator (value c)) eqn:Hc; simpl; rewrite Hc.
    + rewrite IH.
      replace (index + 1 + 1 - (sc + 1)) with (index + 1 - sc) by lia.
      destruct (_ <=? d); trivial. simpl.
      destruct (nth_selectable cs _); simpl; trivial.
      do 2 f_equal. lia.
    + simpl. destruct (Z.eqb_spec (index + 1 - sc) d) as [E|E]; simpl.
      * rewrite E, Z.leb_refl, Z.sub_diag. simpl. do 2 f_equal. lia.
      * rewrite IH.
        destruct (Z.leb_spec (index + 1 + 1 - sc) d) as [H|H];
          destruct (Z.leb_spec (index + 1 - sc) d) as [H'|H']; try lia; trivial.
        replace (Z.to_nat (d - (index + 1 - sc)))
          with (S (Z.to_nat (d - (index + 1 + 1 - sc)))) by lia.
        destruct (nth_selectable cs _); simpl; trivial.
        do 2 f_equal. lia.
Qed.

Lemma find_default_not_int v cs : forall index separator_count,
  (forall d, v <> Int d) ->
  find_default v (index_choices index separator_count cs) = Ok None.
Proof.
  induction cs as [|c cs IH]; intros index sc H; simpl; [reflexivity|].
  destruct (isinstance_Separator (value c)) eqn:Hc; simpl; rewrite Hc; auto.
  simpl. destruct v; simpl; auto. destruct (H n). reflexivity.
Qed.

Lemma selectable_count_exists cs :
  existsb selectable cs = true <-> (1 <= List.length (filter selectable cs))%nat.
Proof.
  induction cs as [|c cs IH]; simpl; [split; [discriminate|lia]|].
  destruct (selectable c); simpl; [split; [lia|reflexivity]|exact IH].
Qed.

Lemma selectable_count_none cs :
  forallb is_separator cs = true <-> List.length (filter selectable cs) = 0%nat.
Proof.
  induction cs as [|c cs IH]; simpl; [split; reflexivity|].
  unfold selectable at 1. destruct (is_separator c); simpl;
    [exact IH|split; discriminate].
Qed.

Section Construction.
Variable base : InquirerPyUIControl.
Variable super_init : result (list inherited_binding).
Variables (default : pyobj) (separator pointer marker : string).

Let indexed := index_choices 0 0 (base_choices base).

Lemma RawlistPrompt_init_inv prompt :
  RawlistPrompt_init base super_init default separator pointer marker = Ok prompt ->
  choices (content_control prompt) = indexed
  /\ register_keybindings 0 indexed = Ok (kb prompt)
  /\ super_init = Ok (inherited_kb prompt).
Proof.
  unfold RawlistPrompt_init, InquirerPyRawlistControl_init. fold indexed.
  destruct (first_valid_choice_index 0 indexed) as [first|]; simpl;
    [|discriminate].
  destruct (if _ =? first then _ else _) as [sel|]; simpl; [|discriminate].
  destruct super_init as [inherited|]; simpl; [|discriminate].
  destruct (register_keybindings 0 indexed) as [bs|]; simpl; [|discriminate].
  intros [= <-]. simpl. auto.
Qed.

(** With a selectable choice the control is constructed. *)
Lemma InquirerPyRawlistControl_init_ok :
  existsb selectable (base_choices base) = true ->
  exists control,
    InquirerPyRawlistControl_init base default pointer separator marker
    = Ok control
    /\ choices control = indexed.
Proof.
  intros H. unfold InquirerPyRawlistControl_init.
  destruct (first_valid_some_selectable _ 0 0 0 H) as [first ->]. simpl.
  destruct (find_default_indexed default (base_choices base) 0 0)
    as [found ->].
  destruct (_ =? first); simpl; eauto.
Qed.

(** With one to nine selectable choices, and the base class constructed,
    the prompt is constructed. *)
Lemma RawlistPrompt_init_ok inherited :
  existsb selectable (base_choices base) = true ->
  (List.length (filter selectable (base_choices base)) <= 9)%nat ->
  super_init = Ok inherited ->
  exists prompt,
    RawlistPrompt_init base super_init default separator pointer marker
    = Ok prompt.
Proof.
  intros H H9 Hsuper. unfold RawlistPrompt_init.
  destruct (InquirerPyRawlistControl_init_ok H) as (control & -> & Hcs).
  rewrite Hsuper. simpl. rewrite Hcs.
  destruct (register_keybindings_indexed (base_choices base) 0%nat 0 0)
    as [Hok _]; [lia|].
  destruct Hok as [bs Hbs]; [lia|].
  unfold indexed. rewrite Hbs. simpl. eauto.
Qed.

(** X1: the control constructor in closed form: it fails with [IndexError]
    when no choice is selectable; otherwise the choices are the indexed
    ones and the cursor stays where the base constructor left it, unless
    that is the first selectable choice and [default] is the display index
    of a choice, to which the cursor then goes. *)
Theorem rawlist_control_init_closed_form :
  InquirerPyRawlistControl_init base default pointer separator marker
  = match nth_selectable (base_choices base) 0 with
    | None => Raise IndexError
    | Some first =>
        Ok {| _pointer := pointer; _separator := separator; _marker := marker;
              choices := index_choices 0 0 (base_choices base);
              selected_choice_index :=
                relocated (base_choices base) default first
                          (base_selected_choice_index base) |}
    end.
Proof.
  unfold InquirerPyRawlistControl_init.
  rewrite first_valid_nth_selectable.
  destruct (nth_selectable (base_choices base) 0) as [first|]; simpl; trivial.
  unfold relocated.
  destruct (_ =? Z.of_nat first); simpl; trivial.
  destruct default as [|d|s|line];
    try (rewrite find_default_not_int by discriminate; reflexivity).
  rewrite find_default_nth_selectable.
  change (0 + 1 - 0) with 1.
  destruct (1 <=? d); cbn [bind option_map]; trivial.
  destruct (nth_selectable _ _); reflexivity.
Qed.

(** X2: how [RawlistPrompt.__init__] ends.  With no choice that is not a
    separator the control constructor raises [IndexError]; with at least
    one, an exception of the base class constructor goes through; with
    ten or more, and the base class constructed, registering the key of
    the tenth raises [ValueError].  So a prompt is constructed exactly
    when the base class is and between one and nine choices are not
    separators. *)
Theorem rawlist_construction_succeeds_iff :
  let n := List.length (filter selectable (base_choices base)) in
  (n = 0%nat ->
   RawlistPrompt_init base super_init default separator pointer marker
   = Raise IndexError)
  /\ (forall e,
        (1 <= n)%nat -> super_init = Raise e ->
        RawlistPrompt_init base super_init default separator pointer marker
        = Raise e)
  /\ (forall inherited,
        (10 <= n)%nat -> super_init = Ok inherited ->
        RawlistPrompt_init base super_init default separator pointer marker
        = Raise ValueError)
  /\ ((exists prompt,
         RawlistPrompt_init base super_init default separator pointer marker
         = Ok prompt)
      <-> (1 <= n <= 9)%nat /\ exists inherited, super_init = Ok inherited).
Proof.
  cbv zeta.
  assert (Hnone : List.length (filter selectable (base_choices base)) = 0%nat ->
                  RawlistPrompt_init base super_init default separator pointer
                    marker = Raise IndexError).
  { intros H0. apply selectable_count_none in H0.
    unfold RawlistPrompt_init, InquirerPyRawlistControl_init.
    rewrite (first_valid_all_separators _ 0 0 0 H0). reflexivity. }
  assert (Hraise : forall e,
            (1 <= List.length (filter selectable (base_choices base)))%nat ->
            super_init = Raise e ->
            RawlistPrompt_init base super_init default separator pointer marker
            = Raise e).
  { intros e H1 Hsuper. apply selectable_count_exists in H1.
    unfold RawlistPrompt_init.
    destruct (InquirerPyRawlistControl_init_ok H1) as (control & -> & _).
    rewrite Hsuper. reflexivity. }
  assert (Hten : forall inherited,
            (10 <= List.length (filter selectable (base_choices base)))%nat ->
            super_init = Ok inherited ->
            RawlistPrompt_init base super_init default separator pointer marker
            = Raise ValueError).
  { intros inherited H10 Hsuper.
    assert (H1 : existsb selectable (base_choices base) = true)
      by (apply selectable_count_exists; lia).
    unfold RawlistPrompt_init.
    destruct (InquirerPyRawlistControl_init_ok H1) as (control & -> & Hcs).
    rewrite Hsuper. simpl. rewrite Hcs.
    destruct (register_keybindings_indexed (base_choices base) 0%nat 0 0)
      as [_ Herr]; [lia|].
    unfold indexed. rewrite Herr; [reflexivity|lia|lia]. }
  split; [exact Hnone|]. split; [exact Hraise|]. split; [exact Hten|].
  split.
  - intros [prompt H].
    destruct (RawlistPrompt_init_inv _ H) as (_ & _ & Hsuper).
    split; [|eauto].
    destruct (Nat.eq_dec (List.length (filter selectable (base_choices base))) 0)
      as [E|E]; [rewrite (Hnone E) in H; discriminate|].
    destruct (le_lt_dec 10 (List.length (filter selectable (base_choices base))))
      as [H10|H10]; [rewrite (Hten _ H10 Hsuper) in H; discriminate|lia].
  - intros [[H1 H9] [inherited Hsuper]].
    apply (RawlistPrompt_init_ok inherited); trivial.
    apply selectable_count_exists, H1.
Qed.

(** A jump key pressed in any state of a constructed prompt: the state
    may have another cursor and other inherited bindings. *)
Lemma press_jump_key prompt i c :
  RawlistPrompt_init base super_init default separator pointer marker = Ok prompt ->
  nth_error (choices (content_control prompt)) i = Some c ->
  is_separator c = false ->
  display_index c = Some (Z.of_nat (rank (base_choices base) i) + 1)
  /\ actual_index c = Some (Z.of_nat i)
  /\ In {| key := str (Z.of_nat (rank (base_choices base) i) + 1);
           captured_choice := i |} (kb prompt)
  /\ (forall b, In b (kb prompt) ->
                key b = str (Z.of_nat (rank (base_choices base) i) + 1) ->
                captured_choice b = i)
  /\ forall state,
       choices (content_control state) = choices (content_control prompt) ->
       kb state = kb prompt ->
       exists state',
         press (str (Z.of_nat (rank (base_choices base) i) + 1)) state
         = Ok state'
         /\ selected_choice_index (content_control state') = Z.of_nat i
         /\ choices (content_control state') = choices (content_control state)
         /\ kb state' = kb state
         /\ inherited_kb state' = inherited_kb state.
Proof.
  intros Hinit Hi Hc.
  destruct (RawlistPrompt_init_inv _ Hinit) as (Hcs & Hkb & _).
  pose proof Hi as Hi'. rewrite Hcs in Hi'. unfold indexed in *.
  destruct (indexed_selectable _ _ _ Hi' Hc) as (Hd & Ha & c0 & Hi0 & Hc0).
  pose proof (register_keybindings_In _ _ _ Hkb) as Hreg.
  assert (Hown : In {| key := str (Z.of_nat (rank (base_choices base) i) + 1);
                       captured_choice := i |} (kb prompt)).
  { apply Hreg. exists i, c, (Z.of_nat (rank (base_choices base) i) + 1).
    auto. }
  assert (Huniq : forall b, In b (kb prompt) ->
            key b = str (Z.of_nat (rank (base_choices base) i) + 1) ->
            captured_choice b = i).
  { intros b Hb Hk. apply Hreg in Hb.
    destruct Hb as (j & c' & d' & Hj & Hs' & Hd' & ->). simpl in *.
    apply str_inj in Hk. subst d'.
    destruct (indexed_selectable _ _ _ Hj Hs') as (Hd'' & _ & c1 & Hj1 & Hc1).
    rewrite Hd' in Hd''. injection Hd'' as E.
    symmetry. apply (rank_inj (base_choices base) i j c0 c1); trivial. lia. }
  repeat split; trivial.
  intros state Hstate Hkbs. unfold press, bindings_for. rewrite Hkbs.
  destruct (last_binding (str (Z.of_nat (rank (base_choices base) i) + 1))
              _ _ Hown eq_refl) as (b & rest & -> & Hb & Hk).
  unfold run_keybinding. rewrite (Huniq b Hb Hk), Hstate, Hi, Ha.
  eexists. split; [reflexivity|]. repeat split; simpl; congruence.
Qed.

(** C2: in a constructed rawlist prompt every choice that is not a
    separator has a binding on the decimal string of its display index;
    that binding holds the choice itself, no other jump binding of the
    prompt shares its key, and pressing the key, wherever the cursor
    stands and whatever the base class bound, leaves the cursor index
    equal to the actual index of that choice, the position of the choice
    in the list; choices and bindings stay as they are. *)
Theorem rawlist_jump_keybinding prompt i c :
  RawlistPrompt_init base super_init default separator pointer marker = Ok prompt ->
  nth_error (choices (content_control prompt)) i = Some c ->
  is_separator c = false ->
  exists d,
    display_index c = Some d
    /\ actual_index c = Some (Z.of_nat i)
    /\ In {| key := str d; captured_choice := i |} (kb prompt)
    /\ (forall b, In b (kb prompt) -> key b = str d -> captured_choice b = i)
    /\ (forall state,
          choices (content_control state) = choices (content_control prompt) ->
          kb state = kb prompt ->
          exists state',
            press (str d) state = Ok state'
            /\ Some (selected_choice_index (content_control state'))
               = actual_index c
            /\ selected_choice_index (content_control state') = Z.of_nat i
            /\ nth_error (choices (content_control state')) i = Some c
            /\ choices (content_control state') = choices (content_control state)
            /\ kb state' = kb state
            /\ inherited_kb state' = inherited_kb state).
Proof.
  intros Hinit Hi Hc.
  destruct (press_jump_key _ _ _ Hinit Hi Hc) as (Hd & Ha & Hown & Huniq & Hpress).
  exists (Z.of_nat (rank (base_choices base) i) + 1).
  repeat split; trivial.
  intros state Hstate Hkbs.
  destruct (Hpress state Hstate Hkbs) as (state' & Hp & Hsel & Hcs & Hkb' & Hinh).
  exists state'. rewrite Ha, Hsel, Hcs, Hstate. repeat split; trivial.
Qed.

End Construction.

End JumpKeys.

(** The example of C2 computed: the prompt is constructed, the key "2" is
    bound, and pressing it moves the cursor from "a" to position 2, "b",
    although the base class had bound "2" to something else. *)
Lemma rawlist_abc_press_2 :
  RawlistPrompt_init abc_base (Ok abc_inherited) PyNone ")" " " ">"
  = Ok abc_prompt
  /\ selected_choice_index (content_control abc_prompt) = 1
  /\ (exists state',
        press "2" abc_prompt = Ok state'
        /\ selected_choice_index (content_control state') = 2
        /\ choices (content_control state') = choices (content_control abc_prompt))
  /\ nth_error (choices (content_control abc_prompt)) 2 = Some abc_b
  /\ name abc_b = "b"
  /\ display_index abc_b = Some 2
  /\ actual_index abc_b = Some 2.
Proof.
  split; [reflexivity|]. split; [reflexivity|]. split; [|repeat split].
  eexists. split; [reflexivity|]. split; reflexivity.
Qed.

(** The jump-key theorem at the choice "b" of that prompt. *)
Lemma rawlist_jump_keybinding_witness :
  exists d,
    display_index abc_b = Some d
    /\ actual_index abc_b = Some (Z.of_nat 2)
    /\ In {| key := str d; captured_choice := 2 |} (kb abc_prompt)
    /\ (forall b,
          In b (kb abc_prompt) -> key b = str d -> captured_choice b = 2%nat)
    /\ (forall state,
          choices (content_control state) = choices (content_control abc_prompt) ->
          kb state = kb abc_prompt ->
          exists state',
            press (str d) state = Ok state'
            /\ Some (selected_choice_index (content_control state'))
               = actual_index abc_b
            /\ selected_choice_index (content_control state') = Z.of_nat 2
            /\ nth_error (choices (content_control state')) 2 = Some abc_b
            /\ choices (content_control state') = choices (content_control state)
            /\ kb state' = kb state
            /\ inherited_kb state' = inherited_kb state).
Proof.
  apply (rawlist_jump_keybinding abc_base (Ok abc_inherited) PyNone ")" " " ">"
           abc_prompt 2%nat abc_b); reflexivity.
Defined.

(** ** Choice lists of separators only *)

Section Degenerate.

Lemma find_index_none p cs : forall i,
  (forall c, In c cs -> p c = false) -> Base.find_index p i cs = None.
Proof.
  induction cs as [|c cs IH]; intros i H; simpl; [reflexivity|].
  rewrite (H c) by (left; reflexivity). apply IH.
  intros c' Hc'. apply H. right. exact Hc'.
Qed.

Lemma find_index_some p cs : forall i k,
  Base.find_index p i cs = Some k ->
  exists n c, k = i + Z.of_nat n /\ nth_error cs n = Some c /\ p c = true.
Proof.
  induction cs as [|c cs IH]; intros i k H; simpl in H; [discriminate|].
  destruct (p c) eqn:Hc.
  - injection H as <-. exists 0%nat, c. split; [lia|]. auto.
  - destruct (IH _ _ H) as (n & c' & -> & Hn & Hc').
    exists (S n), c'. split; [lia|]. auto.
Qed.

Lemma initial_cursor_all_separators cs default :
  forallb is_separator cs = true -> Base.initial_cursor cs default = None.
Proof.
  intros H. unfold Base.initial_cursor.
  rewrite forallb_forall in H.
  rewrite !find_index_none; trivial; intros c Hc; rewrite (H c Hc); reflexivity.
Qed.

Lemma initial_cursor_on_selectable cs default i :
  Base.initial_cursor cs default = Some i -> on_selectable cs i.
Proof.
  unfold Base.initial_cursor, on_selectable. intros H.
  assert (Hfound : exists n c, i = 0 + Z.of_nat n /\ nth_error cs n = Some c
                               /\ is_separator c = false).
  { destruct (Base.find_index _ 0 cs) as [k|] eqn:E.
    - injection H as <-.
      destruct (find_index_some _ _ _ _ E) as (n & c & Hk & Hn & Hc).
      apply andb_prop in Hc. destruct Hc as [Hc _].
      exists n, c. rewrite negb_true_iff in Hc. auto.
    - destruct (find_index_some _ _ _ _ H) as (n & c & Hk & Hn & Hc).
      exists n, c. rewrite negb_true_iff in Hc. auto. }
  destruct Hfound as (n & c & -> & Hn & Hc).
  split; [lia|]. exists c. rewrite Z.add_0_l, Nat2Z.id. auto.
Qed.

Lemma all_separators_normalised raws :
  forallb is_separator (map Base.normalise raws) = all_separators raws.
Proof.
  unfold all_separators.
  induction raws as [|raw raws IH]; simpl; [reflexivity|].
  rewrite IH. reflexivity.
Qed.

(** The base constructor refuses the lists of separators. *)
Lemma base_init_all_separators raws default :
  all_separators raws = true ->
  Base.InquirerPyUIControl_init raws default = Raise InvalidArgument.
Proof.
  unfold Base.InquirerPyUIControl_init. intros H.
  assert (Hcs : forallb is_separator (map Base.normalise raws) = true)
    by (rewrite all_separators_normalised; exact H).
  revert Hcs. destruct (map Base.normalise raws) as [|c cs]; [reflexivity|].
  intros Hcs. rewrite (initial_cursor_all_separators _ default Hcs).
  reflexivity.
Qed.

(** What the base constructor returns: the normalised entries in order,
    with the cursor on one that is not a separator. *)
Lemma base_init_inv raws default base :
  Base.InquirerPyUIControl_init raws default = Ok base ->
  base_choices base = map Base.normalise raws
  /\ on_selectable (base_choices base) (base_selected_choice_index base)
  /\ all_separators raws = false.
Proof.
  unfold Base.InquirerPyUIControl_init. intros H.
  destruct (map Base.normalise raws) as [|c cs] eqn:Hmap; [discriminate|].
  destruct (Base.initial_cursor (c :: cs) default) as [i|] eqn:E;
    [|discriminate].
  injection H as <-. cbn [base_choices base_selected_choice_index].
  split; [reflexivity|]. split; [exact (initial_cursor_on_selectable _ _ _ E)|].
  destruct (all_separators raws) eqn:Hall; trivial.
  rewrite <- all_separators_normalised, Hmap in Hall.
  rewrite (initial_cursor_all_separators _ default Hall) in E. discriminate.
Qed.

(** The scan of lines 39-41 of rawlist.py has no guard of its own: over
    separators only it runs to the end of the list and raises
    [IndexError].  After the base constructor it finds a choice, since the
    base constructor returns only lists with one that is not a separator. *)
Lemma rawlist_scan_after_base raws default base :
  Base.InquirerPyUIControl_init raws default = Ok base ->
  exists first c,
    first_valid_choice_index 0 (index_choices 0 0 (base_choices base)) = Ok first
    /\ 0 <= first
    /\ nth_error (base_choices base) (Z.to_nat first) = Some c
    /\ is_separator c = false.
Proof.
  intros H. destruct (base_init_inv _ _ _ H) as (_ & (_ & c & Hc & Hs) & _).
  rewrite first_valid_nth_selectable.
  assert (Hex : forall cs n c0,
            nth_error cs n = Some c0 -> is_separator c0 = false ->
            exists p c1, nth_selectable cs 0 = Some p
                         /\ nth_error cs p = Some c1 /\ is_separator c1 = false).
  { induction cs as [|x cs IH]; intros [|n] c0 Hn H0; try discriminate.
    - simpl in Hn. injection Hn as ->. simpl. unfold selectable. rewrite H0.
      exists 0%nat, c0. auto.
    - simpl in Hn. simpl. unfold selectable.
      destruct (is_separator x) eqn:Hx; simpl.
      + destruct (IH _ _ Hn H0) as (p & c1 & -> & Hp & H1).
        exists (S p), c1. auto.
      + exists 0%nat, x. auto. }
  destruct (Hex _ _ _ Hc Hs) as (p & c1 & -> & Hp & H1).
  exists (0 + Z.of_nat p), c1. rewrite Z.add_0_l, Nat2Z.id.
  repeat split; trivial. lia.
Qed.

(** C3: a choice list that consists of separators only, the empty list
    included, cannot be made into a prompt: the rawlist prompt, the
    rawlist control and the checkbox control all begin with the base
    constructor, which raises [InvalidArgument], so none of them returns
    an object and the scan of the rawlist control for the first choice
    that is not a separator is never started on such a list.  No other
    exception comes out, whatever the other arguments are. *)
Theorem all_separators_InvalidArgument raws :
  all_separators raws = true ->
  (forall super_init default separator pointer marker,
     Construct.RawlistPrompt_new raws super_init default separator pointer marker
     = Raise InvalidArgument)
  /\ (forall default pointer separator marker,
        Construct.InquirerPyRawlistControl_new raws default pointer separator marker
        = Raise InvalidArgument)
  /\ (forall default pointer enabled_symbol disabled_symbol,
        Construct.InquirerPyCheckboxControl_new raws default pointer
          enabled_symbol disabled_symbol
        = Raise InvalidArgument).
Proof.
  intros H.
  unfold Construct.RawlistPrompt_new, Construct.InquirerPyRawlistControl_new,
    Construct.InquirerPyCheckboxControl_new.
  repeat split; intros; rewrite (base_init_all_separators _ _ H); reflexivity.
Qed.

End Degenerate.

(** The theorem at [[Separator(), {"name": "group", "value": Separator()}]]. *)
Lemma all_separators_InvalidArgument_witness :
  all_separators two_separators = true
  /\ (forall super_init default separator pointer marker,
        Construct.RawlistPrompt_new two_separators super_init default separator
          pointer marker
        = Raise InvalidArgument)
  /\ (forall default pointer separator marker,
        Construct.InquirerPyRawlistControl_new two_separators default pointer
          separator marker
        = Raise InvalidArgument)
  /\ (forall default pointer enabled_symbol disabled_symbol,
        Construct.InquirerPyCheckboxControl_new two_separators default pointer
          enabled_symbol disabled_symbol
        = Raise InvalidArgument).
Proof.
  split; [reflexivity|].
  apply (all_separators_InvalidArgument two_separators). reflexivity.
Defined.

(** ** Rows of separators *)

(** C8, as amended: in normal mode the checkbox renderer gives a separator
    the alignment padding and its name under the separator style and nothing
    else; the rawlist renderer puts its marker column in between, a
    ["class:marker"] segment that is a blank unless the separator is
    enabled; neither emits a checkbox glyph or an index segment. *)
Theorem separator_normal_text
    (checkbox : Checkbox.InquirerPyCheckboxControl)
    (rawlist : InquirerPyRawlistControl) (c : choice) :
  is_separator c = true ->
  Checkbox._get_normal_text checkbox c
  = [("", spaces (String.length (Checkbox.pointer checkbox)));
     ("class:separator", name c)]
  /\ Rawlist._get_normal_text rawlist c
     = Ok [("", spaces (String.length (_pointer rawlist)));
           ("class:marker", if enabled c then _marker rawlist else " ");
           ("class:separator", name c)].
Proof.
  unfold is_separator, Checkbox._get_normal_text, Rawlist._get_normal_text.
  intros ->. split; reflexivity.
Qed.

(** The two renderers on a separator row. *)
Lemma separator_normal_text_witness :
  Checkbox._get_normal_text abc_checkbox (separator_choice "---")
  = [("", spaces (String.length (Checkbox.pointer abc_checkbox)));
     ("class:separator", "---")]
  /\ Rawlist._get_normal_text (content_control abc_prompt) (separator_choice "---")
     = Ok [("", spaces (String.length (_pointer (content_control abc_prompt))));
           ("class:marker", " ");
           ("class:separator", "---")].
Proof.
  apply (separator_normal_text abc_checkbox (content_control abc_prompt)
           (separator_choice "---")).
  reflexivity.
Defined.

(** C8 as stated fails for the rawlist: the row of a separator is not made
    of the padding and the name alone, a marker segment stands between. *)
Lemma rawlist_separator_has_marker_segment :
  Rawlist._get_normal_text (content_control abc_prompt) (separator_choice "---")
  = Ok [("", " "); ("class:marker", " "); ("class:separator", "---")]
  /\ Rawlist._get_normal_text (content_control abc_prompt) (separator_choice "---")
     <> Ok [("", " "); ("class:separator", "---")].
Proof. split; [reflexivity|discriminate]. Qed.

(** ** Confirming a checkbox prompt *)

Section Confirm.

Variable result_name : Checkbox.CheckboxPrompt -> list string.

Lemma filter_none_enabled cs :
  existsb enabled cs = false -> filter enabled cs = [].
Proof.
  induction cs as [|c cs IH]; simpl; [reflexivity|].
  destruct (enabled c); simpl; [discriminate|exact IH].
Qed.

(** C4: with no choice enabled, confirming marks the prompt answered and
    exits the application with the empty list; no validator is called and
    the invalid flag is left alone. *)
Theorem checkbox_enter_nothing_enabled self :
  existsb enabled (Checkbox.choices (Checkbox.content_control self)) = false ->
  exists self',
    Checkbox._handle_enter result_name self = (self', [Checkbox.AppExit []])
    /\ Checkbox.status_answered self' = true
    /\ Checkbox._invalid self' = Checkbox._invalid self
    /\ Checkbox.content_control self' = Checkbox.content_control self.
Proof.
  intros H. eexists. unfold Checkbox._handle_enter, Checkbox.result_value.
  cbn [Checkbox.content_control Checkbox.status_answered Checkbox._invalid].
  rewrite (filter_none_enabled _ H). repeat split.
Qed.

(** C9: confirming a checkbox prompt marks it answered, records the
    result and exits with the enabled values; the only call made is the
    exit, so the validator is never asked, the invalid flag keeps its
    value, and the outcome is the same whatever validator the prompt
    holds. *)
Theorem checkbox_enter_never_validates self :
  Checkbox.status_answered (fst (Checkbox._handle_enter result_name self)) = true
  /\ snd (Checkbox._handle_enter result_name self)
     = [Checkbox.AppExit (Checkbox.result_value self)]
  /\ (forall selection,
        ~ In (Checkbox.Validate selection)
             (snd (Checkbox._handle_enter result_name self)))
  /\ Checkbox._invalid (fst (Checkbox._handle_enter result_name self))
     = Checkbox._invalid self
  /\ Checkbox._validator (fst (Checkbox._handle_enter result_name self))
     = Checkbox._validator self
  /\ (forall validate,
        snd (Checkbox._handle_enter result_name
               (Checkbox.set_validator validate self))
        = snd (Checkbox._handle_enter result_name self)
        /\ Checkbox._invalid
             (fst (Checkbox._handle_enter result_name
                     (Checkbox.set_validator validate self)))
           = Checkbox._invalid self
        /\ Checkbox.status_answered
             (fst (Checkbox._handle_enter result_name
                     (Checkbox.set_validator validate self)))
           = true).
Proof.
  repeat split.
  intros selection [H|[]]. discriminate.
Qed.

(** The handler that the checkbox prompt overrides does ask the
    validator: with one that refuses, it sets the invalid flag and does
    not exit, where the checkbox handler exits. *)
Lemma base_handle_enter_validates self :
  let refusing := Checkbox.set_validator (Some (fun _ => false)) self in
  Checkbox.base_handle_enter result_name refusing
  = ({| Checkbox.content_control := Checkbox.content_control self;
        Checkbox.status_answered := Checkbox.status_answered self;
        Checkbox.status_result := Checkbox.status_result self;
        Checkbox._invalid := true;
        Checkbox._validator := Some (fun _ => false) |},
     [Checkbox.Validate (Checkbox.result_value self)])
  /\ snd (Checkbox._handle_enter result_name refusing)
     = [Checkbox.AppExit (Checkbox.result_value self)].
Proof. split; reflexivity. Qed.

End Confirm.

(** Confirming the sample checkbox prompt, in which nothing is enabled and
    whose validator refuses everything. *)
Lemma checkbox_enter_nothing_enabled_witness :
  exists self',
    Checkbox._handle_enter (fun _ => []) abc_checkbox_prompt
    = (self', [Checkbox.AppExit []])
    /\ Checkbox.status_answered self' = true
    /\ Checkbox._invalid self' = Checkbox._invalid abc_checkbox_prompt
    /\ Checkbox.content_control self' = Checkbox.content_control abc_checkbox_prompt.
Proof.
  apply (checkbox_enter_nothing_enabled (fun _ => []) abc_checkbox_prompt).
  reflexivity.
Defined.

(** * Further properties of the code *)

(** ** [calculate_height]: what it raises, and how far the floats stray *)

Section Exceptions.

Variables term_lines offset : Z.

Lemma percentage_outcome s :
  (exists r, percentage term_lines offset s = Ok r)
  \/ percentage term_lines offset s = Raise ValueError
  \/ percentage term_lines offset s = Raise OverflowError.
Proof.
  unfold percentage, int_of_str.
  destruct (parse_int (remove_char "%" s)) as [n|]; simpl; auto.
  destruct (percent_rows_outcome term_lines offset n) as [H|H]; auto.
Qed.

Lemma dimmension_height_outcome height :
  (exists r, dimmension_height term_lines offset height = Ok r)
  \/ dimmension_height term_lines offset height = Raise ValueError
  \/ dimmension_height term_lines offset height = Raise OverflowError.
Proof.
  unfold dimmension_height.
  destruct (negb (truth height)); [eauto|].
  destruct height as [[n|s]|]; eauto.
  destruct (percentage_outcome s) as [[r ->]|[-> | ->]]; simpl; eauto.
Qed.

Lemma dimmension_max_height_outcome max_height :
  (exists r, dimmension_max_height term_lines offset max_height = Ok r)
  \/ dimmension_max_height term_lines offset max_height = Raise ValueError
  \/ dimmension_max_height term_lines offset max_height = Raise OverflowError.
Proof.
  unfold dimmension_max_height.
  destruct (negb (truth max_height)); [eauto|].
  destruct max_height as [[n|s]|]; eauto.
  apply percentage_outcome.
Qed.

(** X3: whatever its arguments, [calculate_height] lets no [ValueError]
    out: it returns, or raises [InvalidArgument], or, the float arithmetic
    overflowing, [OverflowError], which its [except] clause does not catch.
    With arguments that are unset or integers it always returns. *)
Theorem calculate_height_exceptions height max_height :
  (forall e,
      calculate_height term_lines height max_height offset = Raise e ->
      e = InvalidArgument \/ e = OverflowError)
  /\ ((forall s, height <> Some (PyStr s)) ->
      (forall s, max_height <> Some (PyStr s)) ->
      exists dh dmh,
        calculate_height term_lines height max_height offset = Ok (dh, dmh)).
Proof.
  unfold calculate_height. split.
  - intros e.
    destruct (dimmension_height_outcome height) as [[dh ->]|[-> | ->]]; simpl;
      try (intros [= <-]; auto).
    destruct (dimmension_max_height_outcome max_height)
      as [[dmh ->]|[-> | ->]]; simpl; try discriminate; intros [= <-]; auto.
  - intros Hh Hm.
    unfold dimmension_height, dimmension_max_height.
    destruct height as [[n|s]|]; [|destruct (Hh s); reflexivity|];
      destruct max_height as [[m|s']|]; try (destruct (Hm s'); reflexivity);
      simpl;
      repeat match goal with
             | |- context [negb (?a =? 0)] => destruct (a =? 0); simpl
             end; eauto.
Qed.

End Exceptions.

Lemma percent_rows_offset term_lines offset n :
  percent_rows term_lines offset n
  = (rows <- percent_rows term_lines 0 n ;; Ok (rows - offset)).
Proof.
  unfold percent_rows.
  destruct (Float.true_div n 100); simpl; trivial.
  destruct (Float.int_mul term_lines a); simpl; trivial.
  destruct (Float.floor a0); simpl; trivial.
  rewrite Z.sub_0_r. reflexivity.
Qed.

Lemma In_zrange n z : 0 <= z < Z.of_nat n -> In z (zrange n).
Proof.
  intros H. unfold zrange. apply in_map_iff.
  exists (Z.to_nat z). split; [lia|]. apply in_seq. lia.
Qed.

(** Every terminal height up to 1000 lines with every percentage from 0
    to 100, computed. *)
Lemma percent_close_checked :
  forallb (fun T => forallb (percent_close T) (zrange 101)) (zrange 1001) = true.
Proof. vm_compute. reflexivity. Qed.

(** X4: on a terminal of at most 1000 lines a percentage between 0 and 100
    never raises; the rows it yields before the offset are the exact
    [floor(term_lines * P / 100)] or one row less, never more, and they lie
    between 0 and the terminal height. *)
Theorem percentage_within_one_row term_lines offset s n :
  0 <= term_lines <= 1000 ->
  parse_int (remove_char "%" s) = Some n ->
  0 <= n <= 100 ->
  exists rows,
    percentage term_lines offset s = Ok (rows - offset)
    /\ term_lines * n / 100 - 1 <= rows <= term_lines * n / 100
    /\ 0 <= rows <= term_lines.
Proof.
  intros HT Hs Hn.
  pose proof percent_close_checked as H.
  rewrite forallb_forall in H.
  assert (HT' : 0 <= term_lines < Z.of_nat 1001)
    by (change (Z.of_nat 1001) with 1001; lia).
  assert (Hn' : 0 <= n < Z.of_nat 101)
    by (change (Z.of_nat 101) with 101; lia).
  specialize (H term_lines (In_zrange _ _ HT')).
  rewrite forallb_forall in H.
  specialize (H n (In_zrange _ _ Hn')).
  unfold percent_close in H.
  rewrite (percentage_parsed _ _ _ _ Hs), percent_rows_offset.
  destruct (percent_rows term_lines 0 n) as [rows|]; [|discriminate].
  apply andb_prop in H. destruct H as [H H3].
  apply andb_prop in H. destruct H as [H1 H2].
  apply Z.leb_le in H1, H2, H3.
  exists rows. simpl. repeat split; try lia.
  assert (term_lines * n / 100 <= term_lines); [|lia].
  apply Z.div_le_upper_bound; nia.
Qed.

(** A terminal of 100 lines and "29%": one row below the exact 29. *)
Lemma percentage_within_one_row_witness :
  exists rows,
    percentage 100 1 "29%" = Ok (rows - 1)
    /\ 100 * 29 / 100 - 1 <= rows <= 100 * 29 / 100
    /\ 0 <= rows <= 100.
Proof.
  apply (percentage_within_one_row 100 1 "29%" 29); [lia | reflexivity | lia].
Defined.

(** ** The rawlist control: what indexing keeps, and where the cursor is *)

Section IndexerFrame.

Lemma index_choices_again cs : forall index separator_count index' separator_count',
  index_choices index separator_count
    (index_choices index' separator_count' cs)
  = index_choices index separator_count cs.
Proof.
  induction cs as [|c cs IH]; intros i sc i' sc'; simpl; [reflexivity|].
  destruct (isinstance_Separator (value c)) eqn:Hc; simpl; rewrite Hc, IH;
    reflexivity.
Qed.

Lemma index_choices_keeps cs : forall index separator_count,
  map name (index_choices index separator_count cs) = map name cs
  /\ map value (index_choices index separator_count cs) = map value cs
  /\ map enabled (index_choices index separator_count cs) = map enabled cs.
Proof.
  induction cs as [|c cs IH]; intros i sc; simpl; [auto|].
  destruct (isinstance_Separator (value c)); simpl;
    match goal with
    | |- context [index_choices ?a ?b cs] =>
        destruct (IH a b) as (-> & -> & ->)
    end; auto.
Qed.

(** X5: the indexing loop touches the two index keys only: names, values
    and enabled flags of all choices are as before, in the same order; and
    running the loop again over its own result changes nothing. *)
Theorem rawlist_indexer_frame cs :
  map name (index_choices 0 0 cs) = map name cs
  /\ map value (index_choices 0 0 cs) = map value cs
  /\ map enabled (index_choices 0 0 cs) = map enabled cs
  /\ index_choices 0 0 (index_choices 0 0 cs) = index_choices 0 0 cs.
Proof.
  destruct (index_choices_keeps cs 0 0) as (Hn & Hv & He).
  repeat split; trivial. apply index_choices_again.
Qed.

End IndexerFrame.

Section Keys.

Lemma NoDup_map_injective {A B : Type} (f : A -> B) (l : list A) :
  (forall x y, f x = f y -> x = y) -> NoDup l -> NoDup (map f l).
Proof.
  intros Hf H. induction H as [|x l Hx H IH]; simpl; constructor; trivial.
  intros Hin. apply in_map_iff in Hin. destruct Hin as (y & E & Hy).
  apply Hf in E. subst y. contradiction.
Qed.

(** The keys registered are the strings of the display indices, in order. *)
Lemma register_keybindings_keys cs : forall pos bs ds,
  register_keybindings pos cs = Ok bs ->
  map display_index (filter selectable cs) = map Some ds ->
  map key bs = map str ds.
Proof.
  induction cs as [|c cs IH]; intros pos bs ds H Hd.
  - injection H as <-. destruct ds; [reflexivity|discriminate].
  - simpl in H, Hd. unfold selectable, is_separator in Hd.
    destruct (isinstance_Separator (value c)) eqn:Hc; simpl in H, Hd.
    + eauto.
    + unfold keybinding_factory in H.
      destruct (display_index c) as [d0|] eqn:Hd0; simpl in H; [|discriminate].
      destruct (kb_add (str d0)) as [k0|] eqn:Hk0; simpl in H; [|discriminate].
      apply kb_add_Ok in Hk0. destruct Hk0 as [-> _].
      destruct (register_keybindings (S pos) cs) as [bs'|] eqn:Hr;
        simpl in H; [|discriminate].
      injection H as <-. destruct ds as [|d ds]; [discriminate|].
      simpl in Hd. injection Hd as -> Hd. simpl. f_equal. eauto.
Qed.

Variable base : InquirerPyUIControl.
Variable super_init : result (list inherited_binding).
Variables (default : pyobj) (separator pointer marker : string).

(** X6: the jump keys of a constructed rawlist prompt are the decimal
    strings "1", "2", ..., "n" in this order, [n] being the number of
    choices that are not separators: one key per such choice and no key
    twice. *)
Theorem rawlist_keys_one_to_n prompt :
  RawlistPrompt_init base super_init default separator pointer marker = Ok prompt ->
  map key (kb prompt)
  = map (fun k => str (Z.of_nat k))
        (seq 1 (List.length (filter selectable (base_choices base))))
  /\ List.length (kb prompt)
     = List.length (filter selectable (base_choices base))
  /\ NoDup (map key (kb prompt)).
Proof.
  intros H. destruct (RawlistPrompt_init_inv _ _ _ _ _ _ _ H) as (_ & Hkb & _).
  assert (Hkeys : map key (kb prompt)
                  = map (fun k => str (Z.of_nat k))
                      (seq 1 (List.length (filter selectable (base_choices base))))).
  { rewrite <- (map_map Z.of_nat str).
    apply (register_keybindings_keys _ _ _ _ Hkb).
    rewrite index_choices_display, <- seq_shift, !map_map.
    apply map_ext. intros k. f_equal. lia. }
  split; [exact Hkeys|]. split.
  - rewrite <- (length_map key), Hkeys, length_map, length_seq. reflexivity.
  - rewrite Hkeys. apply NoDup_map_injective; [|apply seq_NoDup].
    intros x y E. apply str_inj in E. lia.
Qed.

End Keys.

(** The keys of the prompt over [[Separator, "a", "b", "c"]]. *)
Lemma rawlist_keys_one_to_n_witness :
  map key (kb abc_prompt)
  = map (fun k => str (Z.of_nat k))
        (seq 1 (List.length (filter selectable (base_choices abc_base))))
  /\ List.length (kb abc_prompt)
     = List.length (filter selectable (base_choices abc_base))
  /\ NoDup (map key (kb abc_prompt)).
Proof.
  apply (rawlist_keys_one_to_n abc_base (Ok abc_inherited) PyNone ")" " " ">"
           abc_prompt).
  reflexivity.
Defined.

(** ** The rawlist cursor *)

Section Cursor.

Lemma nth_selectable_selectable cs : forall k p,
  nth_selectable cs k = Some p ->
  exists c, nth_error cs p = Some c /\ is_separator c = false.
Proof.
  induction cs as [|x cs IH]; intros k p H; simpl in H; [discriminate|].
  unfold selectable in H. destruct (is_separator x) eqn:Hx; simpl in H.
  - destruct (nth_selectable cs k) as [q|] eqn:Hq; [|discriminate].
    injection H as <-. simpl. eauto.
  - destruct k as [|k].
    + injection H as <-. simpl. eauto.
    + destruct (nth_selectable cs k) as [q|] eqn:Hq; [|discriminate].
      injection H as <-. simpl. eauto.
Qed.

Lemma on_selectable_indexed cs cursor :
  on_selectable cs cursor -> on_selectable (index_choices 0 0 cs) cursor.
Proof.
  intros (H0 & c & Hc & Hs). split; trivial.
  rewrite index_choices_nth0, Hc. cbn [option_map]. rewrite Hs. eauto.
Qed.

Variable base : InquirerPyUIControl.
Variables (default : pyobj) (separator pointer marker : string).

(** The constructor's outcome, read off the two scans. *)
Lemma InquirerPyRawlistControl_init_inv control :
  InquirerPyRawlistControl_init base default pointer separator marker = Ok control ->
  choices control = index_choices 0 0 (base_choices base)
  /\ _pointer control = pointer
  /\ exists first,
       nth_selectable (base_choices base) 0 = Some first
       /\ selected_choice_index control
          = relocated (base_choices base) default first
                      (base_selected_choice_index base).
Proof.
  assert (E : InquirerPyRawlistControl_init base default pointer separator marker
              = match nth_selectable (base_choices base) 0 with
                | None => Raise IndexError
                | Some first =>
                    Ok {| _pointer := pointer; _separator := separator;
                          _marker := marker;
                          choices := index_choices 0 0 (base_choices base);
                          selected_choice_index :=
                            relocated (base_choices base) default first
                                      (base_selected_choice_index base) |}
                end).
  { unfold InquirerPyRawlistControl_init.
    rewrite first_valid_nth_selectable.
    destruct (nth_selectable (base_choices base) 0) as [first|]; simpl; trivial.
    unfold relocated.
    destruct (_ =? Z.of_nat first); simpl; trivial.
    destruct default as [|d|s|line];
      try (rewrite find_default_not_int by discriminate; reflexivity).
    rewrite find_default_nth_selectable.
    change (0 + 1 - 0) with 1.
    destruct (1 <=? d); cbn [bind option_map]; trivial.
    destruct (nth_selectable _ _); reflexivity. }
  rewrite E.
  destruct (nth_selectable (base_choices base) 0) as [first|]; [|discriminate].
  intros [= <-]. simpl. eauto.
Qed.

(** X7: the control constructor keeps the cursor on a choice that is not
    a separator: if the base constructor left it on one, it is on one
    afterwards, whatever [default] is, also when [default] is a number
    that no choice carries. *)
Theorem rawlist_cursor_on_selectable control :
  InquirerPyRawlistControl_init base default pointer separator marker = Ok control ->
  on_selectable (base_choices base) (base_selected_choice_index base) ->
  on_selectable (choices control) (selected_choice_index control).
Proof.
  intros H Hbase.
  destruct (InquirerPyRawlistControl_init_inv _ H) as (-> & _ & first & Hf & ->).
  unfold relocated.
  destruct (_ =? Z.of_nat first); [|apply on_selectable_indexed, Hbase].
  destruct default as [|d|s|line]; try apply on_selectable_indexed, Hbase.
  destruct (1 <=? d); [|apply on_selectable_indexed, Hbase].
  destruct (nth_selectable (base_choices base) (Z.to_nat (d - 1))) as [p|] eqn:Hp;
    [|apply on_selectable_indexed, Hbase].
  apply on_selectable_indexed.
  destruct (nth_selectable_selectable _ _ _ Hp) as (c & Hc & Hs).
  split; [lia|]. rewrite Nat2Z.id. eauto.
Qed.

End Cursor.

(** The control over [[Separator, "a", "b", "c"]] with default 3: the
    cursor goes from "a" to "c". *)
Lemma rawlist_cursor_on_selectable_witness :
  on_selectable
    (choices {| _pointer := " "; _separator := ")"; _marker := ">";
                choices := index_choices 0 0 (base_choices abc_base);
                selected_choice_index := 3 |})
    3.
Proof.
  apply (rawlist_cursor_on_selectable abc_base (Int 3) ")" " " ">"
           {| _pointer := " "; _separator := ")"; _marker := ">";
              choices := index_choices 0 0 (base_choices abc_base);
              selected_choice_index := 3 |}).
  - reflexivity.
  - split; [simpl; lia|]. eexists. split; reflexivity.
Defined.

(** ** Keys, rows and the message of a constructed rawlist prompt *)

Section Prompt.

Lemma string_length_app (a b : string) :
  String.length (a ++ b) = (String.length a + String.length b)%nat.
Proof. induction a as [|c a IH]; simpl; [reflexivity|]. rewrite IH. reflexivity. Qed.

Lemma spaces_length n : String.length (spaces n) = n.
Proof. induction n as [|n IH]; simpl; [reflexivity|]. rewrite IH. reflexivity. Qed.

Variable base : InquirerPyUIControl.
Variable super_init : result (list inherited_binding).
Variables (default : pyobj) (separator pointer marker : string).

(** X8: in a constructed rawlist prompt, pressing any of the jump keys,
    wherever the cursor stands and whatever the base class bound to the
    same key, never raises: afterwards the cursor index is the position
    of a choice that is not a separator and whose display index the key
    spells, and the choices and the bindings are as before.  So no jump
    key can put the cursor on a separator or outside the list. *)
Theorem rawlist_press_jump_key prompt k state :
  RawlistPrompt_init base super_init default separator pointer marker = Ok prompt ->
  In k (map key (kb prompt)) ->
  choices (content_control state) = choices (content_control prompt) ->
  kb state = kb prompt ->
  exists state' i c d,
    press k state = Ok state'
    /\ selected_choice_index (content_control state') = Z.of_nat i
    /\ nth_error (choices (content_control state')) i = Some c
    /\ is_separator c = false
    /\ display_index c = Some d
    /\ k = str d
    /\ on_selectable (choices (content_control state'))
                     (selected_choice_index (content_control state'))
    /\ choices (content_control state') = choices (content_control state)
    /\ kb state' = kb state
    /\ inherited_kb state' = inherited_kb state.
Proof.
  intros Hinit Hk Hstate Hkbs.
  destruct (RawlistPrompt_init_inv _ _ _ _ _ _ _ Hinit) as (Hcs & Hkb & _).
  apply in_map_iff in Hk. destruct Hk as (b & <- & Hb).
  apply (register_keybindings_In _ _ _ Hkb) in Hb.
  destruct Hb as (i & c & d & Hi & Hs & Hd & ->). cbn [key].
  rewrite <- Hcs in Hi.
  destruct (press_jump_key _ _ _ _ _ _ _ _ _ Hinit Hi Hs)
    as (Hd' & Ha & _ & _ & Hpress).
  destruct (Hpress state Hstate Hkbs) as (state' & Hp & Hsel & Hcs' & Hkb' & Hinh).
  rewrite Hd in Hd'. injection Hd' as ->.
  exists state', i, c, (Z.of_nat (rank (base_choices base) i) + 1).
  assert (Hi' : nth_error (choices (content_control state')) i = Some c)
    by (rewrite Hcs', Hstate; exact Hi).
  repeat split; trivial.
  - rewrite Hsel. lia.
  - rewrite Hsel, Nat2Z.id. eauto.
Qed.

(** X9: every row of a constructed rawlist control renders, hovered or
    not, without a missing key; both renderings end with the name of the
    choice and have the same width, so that moving the cursor shifts no
    text.  A choice that is not a separator and has no display index, one
    that did not go through the constructor, makes both raise [KeyError]. *)
Theorem rawlist_rows_render control c :
  InquirerPyRawlistControl_init base default pointer separator marker = Ok control ->
  In c (choices control) ->
  (exists hover normal,
      _get_hover_text control c = Ok hover
      /\ _get_normal_text control c = Ok normal
      /\ row_width hover = row_width normal
      /\ (exists segments,
            hover = (segments ++ [("class:pointer", name c)])%list)
      /\ (exists segments style,
            normal = (segments ++ [(style, name c)])%list))
  /\ (forall c',
        is_separator c' = false -> display_index c' = None ->
        _get_hover_text control c' = Raise KeyError
        /\ _get_normal_text control c' = Raise KeyError).
Proof.
  intros Hinit Hin. split.
  - unfold InquirerPyRawlistControl_init in Hinit.
    destruct (first_valid_choice_index 0 _) as [first|]; simpl in Hinit;
      [|discriminate].
    destruct (if _ =? first then _ else _) as [sel|]; simpl in Hinit;
      [|discriminate].
    injection Hinit as <-. cbn [choices] in Hin.
    apply In_nth_error in Hin. destruct Hin as [i Hi].
    unfold _get_hover_text, _get_normal_text, is_separator in *.
    cbn [_pointer _separator _marker].
    destruct (isinstance_Separator (value c)) eqn:Hs; simpl.
    + do 2 eexists. repeat split.
      * unfold row_width, row_text. simpl.
        rewrite !string_length_app, spaces_length. reflexivity.
      * eexists [_; _; _]. reflexivity.
      * eexists [_; _], _. reflexivity.
    + destruct (indexed_selectable _ _ _ Hi Hs) as (-> & _). simpl.
      do 2 eexists. repeat split.
      * unfold row_width, row_text. simpl.
        rewrite !string_length_app, spaces_length. reflexivity.
      * eexists [_; _; _; _]. reflexivity.
      * eexists [_; _; _], _. reflexivity.
  - intros c' Hs Hd. unfold _get_hover_text, _get_normal_text.
    unfold is_separator in Hs. rewrite Hs, Hd. split; reflexivity.
Qed.

(** X10: while a constructed rawlist prompt is not answered and its
    selection is one of its choices that are not separators, the message
    is that of the base class with one more segment, the display index of
    the selection after a blank; and that number is the key that jumps to
    the selection: pressing it leaves the cursor index at the position of
    the selection.  Once answered the message is the base one; before, a
    selection without display index, such as a separator that the indexer
    skipped, makes it raise [KeyError]. *)
Theorem rawlist_prompt_message prompt message i c :
  RawlistPrompt_init base super_init default separator pointer marker = Ok prompt ->
  nth_error (choices (content_control prompt)) i = Some c ->
  is_separator c = false ->
  exists d,
    display_index c = Some d
    /\ _get_prompt_message message false c
       = Ok (message ++ [("class:input", (" " ++ str d)%string)])%list
    /\ (forall state,
          choices (content_control state) = choices (content_control prompt) ->
          kb state = kb prompt ->
          exists state',
            press (str d) state = Ok state'
            /\ selected_choice_index (content_control state') = Z.of_nat i
            /\ nth_error (choices (content_control state'))
                 (Z.to_nat (selected_choice_index (content_control state')))
               = Some c)
    /\ (forall selection, _get_prompt_message message true selection = Ok message)
    /\ (forall selection,
          display_index selection = None ->
          _get_prompt_message message false selection = Raise KeyError).
Proof.
  intros Hinit Hi Hs.
  destruct (press_jump_key _ _ _ _ _ _ _ _ _ Hinit Hi Hs)
    as (Hd & _ & _ & _ & Hpress).
  exists (Z.of_nat (rank (base_choices base) i) + 1).
  unfold _get_prompt_message. rewrite Hd. simpl.
  split; [reflexivity|]. split; [reflexivity|]. split; [|split].
  - intros state Hstate Hkbs.
    destruct (Hpress state Hstate Hkbs) as (state' & Hp & Hsel & Hcs & _).
    exists state'. rewrite Hsel, Nat2Z.id, Hcs, Hstate. auto.
  - reflexivity.
  - intros selection ->. reflexivity.
Qed.

End Prompt.

(** Pressing "2" in the prompt over [[Separator, "a", "b", "c"]]. *)
Lemma rawlist_press_jump_key_witness :
  exists state' i c d,
    press "2" abc_prompt = Ok state'
    /\ selected_choice_index (content_control state') = Z.of_nat i
    /\ nth_error (choices (content_control state')) i = Some c
    /\ is_separator c = false
    /\ display_index c = Some d
    /\ "2" = str d
    /\ on_selectable (choices (content_control state'))
                     (selected_choice_index (content_control state'))
    /\ choices (content_control state') = choices (content_control abc_prompt)
    /\ kb state' = kb abc_prompt
    /\ inherited_kb state' = inherited_kb abc_prompt.
Proof.
  apply (rawlist_press_jump_key abc_base (Ok abc_inherited) PyNone ")" " " ">"
           abc_prompt "2" abc_prompt).
  - reflexivity.
  - simpl. auto.
  - reflexivity.
  - reflexivity.
Defined.

(** The row of "b" in the control of that prompt. *)
Lemma rawlist_rows_render_witness :
  (exists hover normal,
      _get_hover_text (content_control abc_prompt) abc_b = Ok hover
      /\ _get_normal_text (content_control abc_prompt) abc_b = Ok normal
      /\ row_width hover = row_width normal
      /\ (exists segments,
            hover = (segments ++ [("class:pointer", name abc_b)])%list)
      /\ (exists segments style,
            normal = (segments ++ [(style, name abc_b)])%list))
  /\ (forall c',
        is_separator c' = false -> display_index c' = None ->
        _get_hover_text (content_control abc_prompt) c' = Raise KeyError
        /\ _get_normal_text (content_control abc_prompt) c' = Raise KeyError).
Proof.
  apply (rawlist_rows_render abc_base PyNone ")" " " ">"
           (content_control abc_prompt) abc_b).
  - reflexivity.
  - simpl. auto.
Defined.

(** The message of that prompt while "b" is the selection. *)
Lemma rawlist_prompt_message_witness :
  exists d,
    display_index abc_b = Some d
    /\ _get_prompt_message [("class:question", "Pick")] false abc_b
       = Ok ([("class:question", "Pick")]
               ++ [("class:input", (" " ++ str d)%string)])%list
    /\ (forall state,
          choices (content_control state) = choices (content_control abc_prompt) ->
          kb state = kb abc_prompt ->
          exists state',
            press (str d) state = Ok state'
            /\ selected_choice_index (content_control state') = Z.of_nat 2
            /\ nth_error (choices (content_control state'))
                 (Z.to_nat (selected_choice_index (content_control state')))
               = Some abc_b)
    /\ (forall selection,
          _get_prompt_message [("class:question", "Pick")] true selection
          = Ok [("class:question", "Pick")])
    /\ (forall selection,
          display_index selection = None ->
          _get_prompt_message [("class:question", "Pick")] false selection
          = Raise KeyError).
Proof.
  apply (rawlist_prompt_message abc_base (Ok abc_inherited) PyNone ")" " " ">"
           abc_prompt [("class:question", "Pick")] 2%nat abc_b); reflexivity.
Defined.

(** ** The checkbox control *)

Section CheckboxControl.

(** The loop over [zip(choices, self.choices)], entry by entry. *)
Lemma init_enabled_nth raws : forall cs i,
  nth_error (Checkbox.init_enabled raws cs) i
  = option_map
      (fun c =>
         match nth_error raws i with
         | Some raw => set_enabled (raw_flag raw) c
         | None => c
         end)
      (nth_error cs i).
Proof.
  induction raws as [|raw raws IH]; intros cs i.
  - simpl. destruct (nth_error cs i), i; reflexivity.
  - destruct cs as [|c cs]; [destruct i; reflexivity|].
    destruct i as [|i]; simpl.
    + destruct raw as [n v [b|]|v]; reflexivity.
    + apply IH.
Qed.

Lemma init_enabled_keeps raws : forall cs,
  List.length (Checkbox.init_enabled raws cs) = List.length cs
  /\ map name (Checkbox.init_enabled raws cs) = map name cs
  /\ map value (Checkbox.init_enabled raws cs) = map value cs.
Proof.
  induction raws as [|raw raws IH]; intros cs; [destruct cs; auto|].
  destruct cs as [|c cs]; [auto|]. simpl.
  destruct (IH cs) as (-> & -> & ->). auto.
Qed.

(** X11: the checkbox control constructor keeps the number, the order,
    the names and the values of the choices, and appends one blank to the
    pointer.  The choice at a position is enabled exactly when the raw
    entry at that position is a dictionary whose "enabled" is true: plain
    values and separators start disabled, dictionaries without the key
    too; a choice beyond the end of the raw entries is left as the base
    constructor made it. *)
Theorem checkbox_control_init raws base pointer enabled_symbol disabled_symbol :
  let control :=
    Checkbox.InquirerPyCheckboxControl_init raws base pointer
      enabled_symbol disabled_symbol in
  Checkbox.pointer control = pointer ++ " "
  /\ List.length (Checkbox.choices control) = List.length (base_choices base)
  /\ map name (Checkbox.choices control) = map name (base_choices base)
  /\ map value (Checkbox.choices control) = map value (base_choices base)
  /\ (forall i,
        nth_error (Checkbox.choices control) i
        = option_map
            (fun c =>
               match nth_error raws i with
               | Some raw => set_enabled (raw_flag raw) c
               | None => c
               end)
            (nth_error (base_choices base) i))
  /\ (forall i v c,
        nth_error raws i = Some (Checkbox.RawValue v) ->
        nth_error (Checkbox.choices control) i = Some c ->
        enabled c = false).
Proof.
  cbv zeta. unfold Checkbox.InquirerPyCheckboxControl_init.
  cbn [Checkbox.pointer Checkbox.choices].
  destruct (init_enabled_keeps raws (base_choices base)) as (Hl & Hn & Hv).
  repeat split; trivial.
  - apply init_enabled_nth.
  - intros i v c Hraw. rewrite init_enabled_nth, Hraw.
    destruct (nth_error (base_choices base) i); [|discriminate].
    intros [= <-]. reflexivity.
Qed.

(** X12: a checkbox row has the same width hovered or not, and ends with
    the name of the choice in both renderings; the row of a separator does
    not depend on its enabled flag, and the row of any other choice
    changes with the flag in the glyph segment only. *)
Theorem checkbox_rows (self : Checkbox.InquirerPyCheckboxControl) (c : choice) :
  row_width (Checkbox._get_hover_text self c)
  = row_width (Checkbox._get_normal_text self c)
  /\ (exists segments,
        Checkbox._get_hover_text self c
        = (segments ++ [("class:pointer", name c)])%list)
  /\ (exists segments style,
        Checkbox._get_normal_text self c
        = (segments ++ [(style, name c)])%list)
  /\ (forall b,
        is_separator c = true ->
        Checkbox._get_hover_text self (set_enabled b c)
        = Checkbox._get_hover_text self c
        /\ Checkbox._get_normal_text self (set_enabled b c)
           = Checkbox._get_normal_text self c)
  /\ (forall b,
        is_separator c = false ->
        Checkbox._get_normal_text self (set_enabled b c)
        = [("", spaces (String.length (Checkbox.pointer self)));
           ("class:checkbox",
            (if b then Checkbox.enabled_symbol self
             else Checkbox.disabled_symbol self) ++ " ");
           ("", name c)]).
Proof.
  unfold Checkbox._get_hover_text, Checkbox._get_normal_text, is_separator.
  cbn [value set_enabled name].
  destruct (isinstance_Separator (value c)) eqn:Hs; simpl.
  - split; [|split; [|split; [|split]]].
    + unfold row_width, row_text. simpl.
      rewrite !string_length_app, spaces_length. reflexivity.
    + eexists [_; _]. reflexivity.
    + eexists [_], _. reflexivity.
    + auto.
    + discriminate.
  - split; [|split; [|split; [|split]]].
    + unfold row_width, row_text. simpl.
      rewrite !string_length_app, spaces_length. reflexivity.
    + eexists [_; _; _]. reflexivity.
    + eexists [_; _], _. reflexivity.
    + discriminate.
    + intros b _. unfold Checkbox.checkbox_segment. simpl.
      destruct b; reflexivity.
Qed.

End CheckboxControl.

(** ** The default style *)

Section Style.

Variable environ : string -> option string.

(** X13: whatever the environment holds, the style has the same fourteen
    slots in the same order, no slot twice; the value of a slot is that of
    the variable named [INQUIRERPY_STYLE_] followed by the slot in upper
    case when the variable is set, and the slot's default otherwise; so
    two environments that agree on the variables with that prefix give
    the same style. *)
Theorem get_style_slots :
  map fst (get_style environ) = map fst (get_style (fun _ => None))
  /\ List.length (get_style environ) = 14%nat
  /\ NoDup (map fst (get_style environ))
  /\ (forall slot v,
        In (slot, v) (get_style environ) ->
        exists default,
          In (slot, default) (get_style (fun _ => None))
          /\ v = getenv environ ("INQUIRERPY_STYLE_" ++ upper slot) default)
  /\ (forall environ',
        (forall name,
            String.prefix "INQUIRERPY_STYLE_" name = true ->
            environ' name = environ name) ->
        get_style environ' = get_style environ).
Proof.
  split; [reflexivity|]. split; [reflexivity|]. split; [|split].
  - simpl. repeat (constructor; [simpl; intuition discriminate|]). constructor.
  - intros slot v H. simpl in H.
    repeat (destruct H as [[= <- <-]|H];
            [eexists; split; [simpl; eauto 20|reflexivity]|]).
    contradiction.
  - intros environ' H. unfold get_style, getenv.
    rewrite !H by reflexivity. reflexivity.
Qed.

End Style.
